(** * The 2D cage manipulator (cage2d_manipulator.c)

    A shallow embedding of the hit test, the pivot table and the modal
    transform of the rectangular cage manipulator, with the properties its
    design document states about them.

    C [float] values are kept abstract behind the interface [FloatOps]:
    every theorem below holds for any interpretation of the arithmetic, in
    particular for IEEE-754 binary32, which is provided as the instance
    [Binary32.ops] and used to evaluate the code on concrete inputs. *)

From Stdlib Require Import ZArith Bool List Lia.
From Stdlib Require Import Floats.SpecFloat.
Import ListNotations.

Local Open Scope Z_scope.

(* ------------------------------------------------------------------ *)
(** ** Floating point interface *)

(** The operations on [float] the source file uses.  [f_of_Z] reads an
    integer literal such as [1.0f] or [20.0f], [f_half] is the literal
    [0.5]; [flt a b] is the C comparison [a < b]. *)
Class FloatOps (F : Type) : Type := {
  f_of_Z : Z -> F;
  f_half : F;
  fadd : F -> F -> F;
  fsub : F -> F -> F;
  fmul : F -> F -> F;
  fdiv : F -> F -> F;
  fneg : F -> F;
  fabsf : F -> F;
  sqrtf : F -> F;
  flt : F -> F -> bool
}.

Declare Scope fl_scope.
Delimit Scope fl_scope with fl.
Infix "+" := fadd : fl_scope.
Infix "-" := fsub : fl_scope.
Infix "*" := fmul : fl_scope.
Infix "/" := fdiv : fl_scope.
Notation "- x" := (fneg x) : fl_scope.
Infix "<?" := flt : fl_scope.

(** [a > b] in C is [b < a]. *)
Definition fgt {F} `{FloatOps F} (a b : F) : bool := flt b a.
Infix ">?" := fgt : fl_scope.

(** IEEE-754 binary32, the format of C [float], on the Standard Library's
    executable specification of floating point numbers. *)
Module Binary32.
Definition prec : Z := 24.
Definition emax : Z := 128.
Definition t : Type := spec_float.

Definition of_Z (z : Z) : t := binary_normalize prec emax z 0 false.
Definition half : t := binary_normalize prec emax 1 (-1) false.
(** [m * 2^e], rounded to nearest even. *)
Definition dyadic (m e : Z) : t := binary_normalize prec emax m e false.

#[global] Instance ops : FloatOps t := {|
  f_of_Z := of_Z;
  f_half := half;
  fadd := SFadd prec emax;
  fsub := SFsub prec emax;
  fmul := SFmul prec emax;
  fdiv := SFdiv prec emax;
  fneg := SFopp;
  fabsf := SFabs;
  sqrtf := SFsqrt prec emax;
  flt := SFltb
|}.
End Binary32.

(* ------------------------------------------------------------------ *)
(** ** Vectors and 4x4 matrices *)

(** Index of a [float[4]] or of a row of a [float[4][4]]. *)
Inductive ix4 : Type := I0 | I1 | I2 | I3.

(** Index of a [float[2]] or [bool[2]]. *)
Inductive ix2 : Type := X | Y.

Definition ix4_eqb (a b : ix4) : bool :=
  match a, b with
  | I0, I0 | I1, I1 | I2, I2 | I3, I3 => true
  | _, _ => false
  end.

Definition ix2_to_ix4 (i : ix2) : ix4 :=
  match i with X => I0 | Y => I1 end.

Section Arrays.
Context {A : Type}.

(** [A[2]]. *)
Definition arr2 : Type := (A * A)%type.

Definition get2 (v : arr2) (i : ix2) : A :=
  match i with X => fst v | Y => snd v end.

Definition set2 (v : arr2) (i : ix2) (a : A) : arr2 :=
  match i with X => (a, snd v) | Y => (fst v, a) end.

(** [A[4]]. *)
Record arr4 : Type := Arr4 { a0 : A; a1 : A; a2 : A; a3 : A }.

Definition get4 (v : arr4) (j : ix4) : A :=
  match j with I0 => a0 v | I1 => a1 v | I2 => a2 v | I3 => a3 v end.

Definition set4 (v : arr4) (j : ix4) (a : A) : arr4 :=
  match j with
  | I0 => Arr4 a (a1 v) (a2 v) (a3 v)
  | I1 => Arr4 (a0 v) a (a2 v) (a3 v)
  | I2 => Arr4 (a0 v) (a1 v) a (a3 v)
  | I3 => Arr4 (a0 v) (a1 v) (a2 v) a
  end.

Definition build4 (f : ix4 -> A) : arr4 := Arr4 (f I0) (f I1) (f I2) (f I3).
End Arrays.
Arguments arr2 : clear implicits.
Arguments arr4 : clear implicits.

(** [float[4][4]]: [mget m i j] is [m[i][j]]. *)
Definition mat4 (F : Type) : Type := arr4 (arr4 F).

Definition mget {F} (m : mat4 F) (i j : ix4) : F := get4 (get4 m i) j.

Definition mset {F} (m : mat4 F) (i j : ix4) (x : F) : mat4 F :=
  set4 m i (set4 (get4 m i) j x).

Definition mbuild {F} (f : ix4 -> ix4 -> F) : mat4 F :=
  build4 (fun i => build4 (f i)).

(* ------------------------------------------------------------------ *)
(** ** Constants of the manipulator library *)

(** Modelled from the spec: the header ED_manipulator_library.h is not part
    of this file.  The transform options are four combinable
    flags {Translate, Rotate, Scale, ScaleUniform}, one bit each. *)
Definition ED_MANIPULATOR_CAGE2D_XFORM_FLAG_TRANSLATE : Z := Z.shiftl 1 0.
Definition ED_MANIPULATOR_CAGE2D_XFORM_FLAG_ROTATE : Z := Z.shiftl 1 1.
Definition ED_MANIPULATOR_CAGE2D_XFORM_FLAG_SCALE : Z := Z.shiftl 1 2.
Definition ED_MANIPULATOR_CAGE2D_XFORM_FLAG_SCALE_UNIFORM : Z := Z.shiftl 1 3.

(** Modelled from the spec: the part enumeration of the same header, in the
    order the design lists it, {TranslateArea, ScaleMinX, ScaleMaxX,
    ScaleMinY, ScaleMaxY, ScaleMinXMinY, ScaleMinXMaxY, ScaleMaxXMinY,
    ScaleMaxXMaxY, Rotate}; "no part" is the value [-1] the hit test
    returns. *)
Definition ED_MANIPULATOR_CAGE2D_PART_TRANSLATE : Z := 0.
Definition ED_MANIPULATOR_CAGE2D_PART_SCALE_MIN_X : Z := 1.
Definition ED_MANIPULATOR_CAGE2D_PART_SCALE_MAX_X : Z := 2.
Definition ED_MANIPULATOR_CAGE2D_PART_SCALE_MIN_Y : Z := 3.
Definition ED_MANIPULATOR_CAGE2D_PART_SCALE_MAX_Y : Z := 4.
Definition ED_MANIPULATOR_CAGE2D_PART_SCALE_MIN_X_MIN_Y : Z := 5.
Definition ED_MANIPULATOR_CAGE2D_PART_SCALE_MIN_X_MAX_Y : Z := 6.
Definition ED_MANIPULATOR_CAGE2D_PART_SCALE_MAX_X_MIN_Y : Z := 7.
Definition ED_MANIPULATOR_CAGE2D_PART_SCALE_MAX_X_MAX_Y : Z := 8.
Definition ED_MANIPULATOR_CAGE2D_PART_ROTATE : Z := 9.

(** Modelled from the spec: the "running" status of WM_types.h that tells
    the host to keep delivering move events. *)
Definition OPERATOR_RUNNING_MODAL : Z := Z.shiftl 1 0.

(** [transform_flag & flag] read as a C condition. *)
Definition has_flag (transform_flag flag : Z) : bool :=
  negb (Z.land transform_flag flag =? 0).

(** The eight scale parts. *)
Definition scale_parts : list Z :=
  [ ED_MANIPULATOR_CAGE2D_PART_SCALE_MIN_X;
    ED_MANIPULATOR_CAGE2D_PART_SCALE_MAX_X;
    ED_MANIPULATOR_CAGE2D_PART_SCALE_MIN_Y;
    ED_MANIPULATOR_CAGE2D_PART_SCALE_MAX_Y;
    ED_MANIPULATOR_CAGE2D_PART_SCALE_MIN_X_MIN_Y;
    ED_MANIPULATOR_CAGE2D_PART_SCALE_MIN_X_MAX_Y;
    ED_MANIPULATOR_CAGE2D_PART_SCALE_MAX_X_MIN_Y;
    ED_MANIPULATOR_CAGE2D_PART_SCALE_MAX_X_MAX_Y ].

(** What ends a call early: [BLI_assert(0)] reached, or a NULL
    [interaction_data] dereferenced. *)
Inductive failure : Type := AssertionFailure | NullInteractionData.

Inductive result (A : Type) : Type :=
| Done (a : A)
| Abort (f : failure).
Arguments Done {A} a.
Arguments Abort {A} f.

(** Requests a modal update leaves with the host. *)
Inductive host_request : Type := RegionTagRedraw | EventAddMousemove.

(* ------------------------------------------------------------------ *)
(** ** The math library *)

Section Math.
Context {F : Type} `{FloatOps F}.
Local Open Scope fl_scope.

Definition f0 : F := f_of_Z 0.
Definition f1 : F := f_of_Z 1.

(** [MANIPULATOR_RESIZER_WIDTH]. *)
Definition MANIPULATOR_RESIZER_WIDTH : F := f_of_Z 20.

Definition vec3 : Type := (F * F * F)%type.

(** Modelled from the spec: [zero_v2] of BLI_math (its vector helpers,
    math_vector.c and the inline part, are outside this file), the local
    origin. *)
Definition zero_v2 : arr2 F := (f0, f0).

(** Modelled from the spec: [sub_v2_v2v2] of BLI_math, the component-wise
    difference [a - b]. *)
Definition sub_v2_v2v2 (a b : arr2 F) : arr2 F :=
  (get2 a X - get2 b X, get2 a Y - get2 b Y).

(** Modelled from the spec: [dot_v3v3] of BLI_math on the first three
    components of two matrix rows. *)
Definition dot_v3v3 (a b : arr4 F) : F :=
  a0 a * a0 b + a1 a * a1 b + a2 a * a2 b.

(** Modelled from the spec: the length of the first three components of a
    matrix row, [sqrtf(dot_v3v3(a, a))]. *)
Definition len_v3 (a : arr4 F) : F := sqrtf (dot_v3v3 a a).

(** Modelled from the spec: [mul_v3_fl] of BLI_math on a matrix row, the
    scaling of its first three components; the fourth is not touched. *)
Definition mul_v3_fl (r : arr4 F) (f : F) : arr4 F :=
  Arr4 (a0 r * f) (a1 r * f) (a2 r * f) (a3 r).

(** Modelled from the spec: [copy_v3_v3] of BLI_math into a matrix row. *)
Definition copy_v3_v3 (r : arr4 F) (a : vec3) : arr4 F :=
  let '(x, y, z) := a in Arr4 x y z (a3 r).

(** Modelled from the spec: [negate_v3] of BLI_math on a matrix row. *)
Definition negate_v3 (r : arr4 F) : arr4 F :=
  Arr4 (- a0 r) (- a1 r) (- a2 r) (a3 r).

(** Modelled from the spec: [unit_m4] of BLI_math (math_matrix.c is outside
    this file), the identity matrix. *)
Definition unit_m4 : mat4 F :=
  mbuild (fun i j => if ix4_eqb i j then f1 else f0).

(** Modelled from the spec: the matrix product of BLI_math,
    [mul_m4_m4m4(R, A, B)] gives [R = A x B]; in Blender's row-of-columns
    storage [R[j][k] = sum_i B[j][i] * A[i][k]], summed in index order. *)
Definition mul_m4_m4m4 (A B : mat4 F) : mat4 F :=
  mbuild (fun j k =>
    mget B j I0 * mget A I0 k + mget B j I1 * mget A I1 k
    + mget B j I2 * mget A I2 k + mget B j I3 * mget A I3 k).

(** Modelled from the spec: the translation matrix that
    [transform_pivot_set_m4] of BLI_math builds in [tmat]. *)
Definition translate_m4 (t : vec3) : mat4 F :=
  set4 unit_m4 I3 (copy_v3_v3 (get4 unit_m4 I3) t).

(** Modelled from the spec: [transform_pivot_set_m4] of BLI_math recentres
    a matrix about a pivot: translate by [-pivot], apply the matrix,
    translate by [+pivot], that is [T(pivot) x mat x T(-pivot)]. *)
Definition transform_pivot_set_m4 (mat : mat4 F) (pivot : vec3) : mat4 F :=
  let tmat := translate_m4 pivot in
  let mat := mul_m4_m4m4 tmat mat in
  let tmat := set4 tmat I3 (negate_v3 (get4 tmat I3)) in
  mul_m4_m4m4 mat tmat.

(** Modelled from the spec: [rctf] of DNA_vec_types.h, a rectangle by its
    four bounds. *)
Record rctf : Type := Rctf { xmin : F; xmax : F; ymin : F; ymax : F }.

(** Modelled from the spec: [BLI_rctf_isect_pt_v] of BLI_rect (rct.c is
    outside this file), rectangle containment with inclusive bounds. *)
Definition BLI_rctf_isect_pt_v (rect : rctf) (xy : arr2 F) : bool :=
  if get2 xy X <? xmin rect then false
  else if get2 xy X >? xmax rect then false
  else if get2 xy Y <? ymin rect then false
  else if get2 xy Y >? ymax rect then false
  else true.
End Math.

(* ------------------------------------------------------------------ *)
(** ** The manipulator and its host *)

Section Cage2D.
Context {F : Type} `{FloatOps F}.
Local Open Scope fl_scope.

(** [RectTransformInteraction]: what a drag remembers from its start. *)
Record RectTransformInteraction : Type := {
  orig_mouse : arr2 F;
  orig_matrix_offset : mat4 F
}.

(** The fields of [wmManipulator] this file reads or writes.  [dimensions]
    and [transform] are the RNA properties of those names; [target_matrix]
    is the target property "matrix", see [target_property_value_get]. *)
Record wmManipulator : Type := {
  dimensions : arr2 F;
  transform : Z;
  matrix_offset : mat4 F;
  highlight_part : Z;
  interaction_data : option RectTransformInteraction;
  target_matrix : option (mat4 F)
}.

Definition set_matrix_offset (mpr : wmManipulator) (m : mat4 F) : wmManipulator :=
  {| dimensions := dimensions mpr; transform := transform mpr;
     matrix_offset := m; highlight_part := highlight_part mpr;
     interaction_data := interaction_data mpr;
     target_matrix := target_matrix mpr |}.

Definition set_interaction_data (mpr : wmManipulator)
    (d : option RectTransformInteraction) : wmManipulator :=
  {| dimensions := dimensions mpr; transform := transform mpr;
     matrix_offset := matrix_offset mpr; highlight_part := highlight_part mpr;
     interaction_data := d;
     target_matrix := target_matrix mpr |}.

Definition set_target_matrix (mpr : wmManipulator)
    (t : option (mat4 F)) : wmManipulator :=
  {| dimensions := dimensions mpr; transform := transform mpr;
     matrix_offset := matrix_offset mpr; highlight_part := highlight_part mpr;
     interaction_data := interaction_data mpr;
     target_matrix := t |}.

(** Modelled from the spec: the target property "matrix" is the host's
    binding of sixteen floats with a getter and a setter (wm_manipulator
    target properties are outside this file).  [target_matrix] holds the
    bound value and is [None] when nothing is bound, the case
    [mpr_prop->type == NULL].  This is
    [WM_manipulator_target_property_value_get_array] into
    [mpr->matrix_offset] under the guard [mpr_prop->type != NULL]. *)
Definition target_property_value_get (mpr : wmManipulator) : wmManipulator :=
  match target_matrix mpr with
  | Some v => set_matrix_offset mpr v
  | None => mpr
  end.

(** Modelled from the spec: the setter of the same binding,
    [WM_manipulator_target_property_value_set_array] under the same
    guard. *)
Definition target_property_value_set (mpr : wmManipulator) (v : mat4 F)
    : wmManipulator :=
  match target_matrix mpr with
  | Some _ => set_target_matrix mpr (Some v)
  | None => mpr
  end.

(** The pointer position of a [wmEvent]. *)
Record wmEvent : Type := { mval : Z * Z }.

(** Modelled from the spec: window-to-local projection of the pointer is
    the host's ([manipulator_window_project_2d], outside this file).  It
    reads the context, the manipulator as it is at the call and the
    [use_offset] switch, and either fails or gives the local point. *)
Record bContext : Type := {
  window_project_2d : wmManipulator -> Z * Z -> bool -> option (arr2 F)
}.

Definition manipulator_window_project_2d (C : bContext) (mpr : wmManipulator)
    (mval : Z * Z) (use_offset : bool) : option (arr2 F) :=
  window_project_2d C mpr mval use_offset.

(** What a callback hands back: the manipulator after the call, the
    requests left with the host, and the returned status. *)
Record outcome : Type := {
  out_mpr : wmManipulator;
  out_requests : list host_request;
  out_status : Z
}.

(* ------------------------------------------------------------------ *)
(** ** manipulator_rect_pivot_from_scale_part *)

(** The pivot [r_pt] and the flags [r_constrain_axis] of a scale part; the
    [default] case of the switch is [BLI_assert(0)]. *)
Definition manipulator_rect_pivot_from_scale_part (part : Z)
    : result (arr2 F * arr2 bool) :=
  let ret (pt : arr2 F) (x y : bool) := Done (pt, (x, y)) in
  if part =? ED_MANIPULATOR_CAGE2D_PART_SCALE_MIN_X
  then ret (f_half, f0) false true
  else if part =? ED_MANIPULATOR_CAGE2D_PART_SCALE_MAX_X
  then ret (- f_half, f0) false true
  else if part =? ED_MANIPULATOR_CAGE2D_PART_SCALE_MIN_Y
  then ret (f0, f_half) true false
  else if part =? ED_MANIPULATOR_CAGE2D_PART_SCALE_MAX_Y
  then ret (f0, - f_half) true false
  else if part =? ED_MANIPULATOR_CAGE2D_PART_SCALE_MIN_X_MIN_Y
  then ret (f_half, f_half) false false
  else if part =? ED_MANIPULATOR_CAGE2D_PART_SCALE_MIN_X_MAX_Y
  then ret (f_half, - f_half) false false
  else if part =? ED_MANIPULATOR_CAGE2D_PART_SCALE_MAX_X_MIN_Y
  then ret (- f_half, f_half) false false
  else if part =? ED_MANIPULATOR_CAGE2D_PART_SCALE_MAX_X_MAX_Y
  then ret (- f_half, - f_half) false false
  else Abort AssertionFailure.

(* ------------------------------------------------------------------ *)
(** ** manipulator_rect_transform_test_select *)

(** [size], the half dimensions. *)
Definition cage_size (dims : arr2 F) : arr2 F :=
  (get2 dims X / f_of_Z 2, get2 dims Y / f_of_Z 2).

(** [margin]: [aspx] and [aspy] start at [1.0f] and one of them is
    replaced, depending on [dims[0] > dims[1]]. *)
Definition cage_margin (dims : arr2 F) : arr2 F :=
  let w := get2 dims X in
  let h := get2 dims Y in
  let '(aspx, aspy) :=
    if get2 dims X >? get2 dims Y then (h / w, f1) else (f1, w / h) in
  (aspx * w / MANIPULATOR_RESIZER_WIDTH, aspy * h / MANIPULATOR_RESIZER_WIDTH).

(** The rectangle [r] of the translate test. *)
Definition rect_translate (size margin : arr2 F) : rctf :=
  {| xmin := - get2 size X + get2 margin X;
     ymin := - get2 size Y + get2 margin Y;
     xmax := get2 size X - get2 margin X;
     ymax := get2 size Y - get2 margin Y |}.

(** The four margin strips [r_xmin], [r_xmax], [r_ymin], [r_ymax]. *)
Definition rect_xmin (size margin : arr2 F) : rctf :=
  {| xmin := - get2 size X; ymin := - get2 size Y;
     xmax := - get2 size X + get2 margin X; ymax := get2 size Y |}.

Definition rect_xmax (size margin : arr2 F) : rctf :=
  {| xmin := get2 size X - get2 margin X; ymin := - get2 size Y;
     xmax := get2 size X; ymax := get2 size Y |}.

Definition rect_ymin (size margin : arr2 F) : rctf :=
  {| xmin := - get2 size X; ymin := - get2 size Y;
     xmax := get2 size X; ymax := - get2 size Y + get2 margin Y |}.

Definition rect_ymax (size margin : arr2 F) : rctf :=
  {| xmin := - get2 size X; ymin := get2 size Y - get2 margin Y;
     xmax := get2 size X; ymax := get2 size Y |}.

(** The hot spot [r_rotate] above the top edge. *)
Definition rect_rotate (size margin : arr2 F) : rctf :=
  let r_rotate_pt : arr2 F := (f0, get2 size Y + get2 margin Y) in
  {| xmin := get2 r_rotate_pt X - get2 margin X / f_of_Z 2;
     xmax := get2 r_rotate_pt X + get2 margin X / f_of_Z 2;
     ymin := get2 r_rotate_pt Y - get2 margin Y / f_of_Z 2;
     ymax := get2 r_rotate_pt Y + get2 margin Y / f_of_Z 2 |}.

(** The scale block of the hit test; [None] when it falls through. *)
Definition test_select_scale (size margin point_local : arr2 F) : option Z :=
  let r_xmin := rect_xmin size margin in
  let r_xmax := rect_xmax size margin in
  let r_ymin := rect_ymin size margin in
  let r_ymax := rect_ymax size margin in
  if BLI_rctf_isect_pt_v r_xmin point_local then
    if BLI_rctf_isect_pt_v r_ymin point_local
    then Some ED_MANIPULATOR_CAGE2D_PART_SCALE_MIN_X_MIN_Y
    else if BLI_rctf_isect_pt_v r_ymax point_local
    then Some ED_MANIPULATOR_CAGE2D_PART_SCALE_MIN_X_MAX_Y
    else Some ED_MANIPULATOR_CAGE2D_PART_SCALE_MIN_X
  else if BLI_rctf_isect_pt_v r_xmax point_local then
    if BLI_rctf_isect_pt_v r_ymin point_local
    then Some ED_MANIPULATOR_CAGE2D_PART_SCALE_MAX_X_MIN_Y
    else if BLI_rctf_isect_pt_v r_ymax point_local
    then Some ED_MANIPULATOR_CAGE2D_PART_SCALE_MAX_X_MAX_Y
    else Some ED_MANIPULATOR_CAGE2D_PART_SCALE_MAX_X
  else if BLI_rctf_isect_pt_v r_ymin point_local
  then Some ED_MANIPULATOR_CAGE2D_PART_SCALE_MIN_Y
  else if BLI_rctf_isect_pt_v r_ymax point_local
  then Some ED_MANIPULATOR_CAGE2D_PART_SCALE_MAX_Y
  else None.

(** The region tests that follow a successful projection, in the order of
    the source: translate, scale, rotate, then [-1]. *)
Definition test_select_regions (transform_flag : Z) (dims point_local : arr2 F)
    : Z :=
  let size := cage_size dims in
  let margin := cage_margin dims in
  if has_flag transform_flag ED_MANIPULATOR_CAGE2D_XFORM_FLAG_TRANSLATE
     && BLI_rctf_isect_pt_v (rect_translate size margin) point_local
  then ED_MANIPULATOR_CAGE2D_PART_TRANSLATE
  else
    match
      if has_flag transform_flag
           (Z.lor ED_MANIPULATOR_CAGE2D_XFORM_FLAG_SCALE
                  ED_MANIPULATOR_CAGE2D_XFORM_FLAG_SCALE_UNIFORM)
      then test_select_scale size margin point_local
      else None
    with
    | Some part => part
    | None =>
        if has_flag transform_flag ED_MANIPULATOR_CAGE2D_XFORM_FLAG_ROTATE
           && BLI_rctf_isect_pt_v (rect_rotate size margin) point_local
        then ED_MANIPULATOR_CAGE2D_PART_ROTATE
        else -1
    end.

Definition manipulator_rect_transform_test_select (C : bContext)
    (mpr : wmManipulator) (event : wmEvent) : Z :=
  match manipulator_window_project_2d C mpr (mval event) true with
  | None => -1
  | Some point_local =>
      test_select_regions (transform mpr) (dimensions mpr) point_local
  end.

(* ------------------------------------------------------------------ *)
(** ** manipulator_rect_transform_invoke *)

Definition manipulator_rect_transform_invoke (C : bContext)
    (mpr : wmManipulator) (event : wmEvent) : outcome :=
  let data_orig_matrix_offset := matrix_offset mpr in
  let data_orig_mouse :=
    match manipulator_window_project_2d C mpr (mval event) false with
    | Some p => p
    | None => zero_v2
    end in
  {| out_mpr :=
       set_interaction_data mpr
         (Some {| orig_mouse := data_orig_mouse;
                  orig_matrix_offset := data_orig_matrix_offset |});
     out_requests := [];
     out_status := OPERATOR_RUNNING_MODAL |}.

(* ------------------------------------------------------------------ *)
(** ** manipulator_rect_transform_modal *)

(** The local arrays the loop over the two axes updates. *)
Record scale_vars : Type := {
  delta_orig : arr2 F;
  delta_curr : arr2 F;
  scale : arr2 F
}.

(** One round of [for (int i = 0; i < 2; i++)]. *)
Definition scale_axis (constrain_axis : arr2 bool) (orig : mat4 F)
    (st : scale_vars) (i : ix2) : scale_vars :=
  if Bool.eqb (get2 constrain_axis i) false then
    let st :=
      if get2 (delta_orig st) i <? f0 then
        {| delta_orig := set2 (delta_orig st) i (get2 (delta_orig st) i * - f1);
           delta_curr := set2 (delta_curr st) i (get2 (delta_curr st) i * - f1);
           scale := scale st |}
      else st in
    {| delta_orig := delta_orig st;
       delta_curr := delta_curr st;
       scale :=
         set2 (scale st) i
           (f1 + ((get2 (delta_curr st) i - get2 (delta_orig st) i)
                  / len_v3 (get4 orig (ix2_to_ix4 i)))) |}
  else st.

(** The [ED_MANIPULATOR_CAGE2D_XFORM_FLAG_SCALE_UNIFORM] block. *)
Definition scale_uniform (transform_flag : Z) (scale : arr2 F) : arr2 F :=
  if has_flag transform_flag ED_MANIPULATOR_CAGE2D_XFORM_FLAG_SCALE_UNIFORM then
    if fabsf (get2 scale X - f1) >? fabsf (get2 scale Y - f1)
    then set2 scale Y (get2 scale X)
    else set2 scale X (get2 scale Y)
  else scale.

(** The two factors after the loop, before the uniform block. *)
Definition scale_factors (dims : arr2 F) (data : RectTransformInteraction)
    (point_local pivot : arr2 F) (constrain_axis : arr2 bool) : arr2 F :=
  let delta_orig := sub_v2_v2v2 (orig_mouse data) pivot in
  let delta_curr := sub_v2_v2v2 point_local pivot in
  let delta_orig := set2 delta_orig X (get2 delta_orig X / get2 dims X) in
  let delta_orig := set2 delta_orig Y (get2 delta_orig Y / get2 dims Y) in
  let delta_curr := set2 delta_curr X (get2 delta_curr X / get2 dims X) in
  let delta_curr := set2 delta_curr Y (get2 delta_curr Y / get2 dims Y) in
  scale
    (fold_left (scale_axis constrain_axis (orig_matrix_offset data)) [X; Y]
       {| delta_orig := delta_orig; delta_curr := delta_curr;
          scale := (f1, f1) |}).

(** [matrix_scale] after the two [mul_v3_fl]. *)
Definition scale_m4 (scale : arr2 F) : mat4 F :=
  let matrix_scale := unit_m4 in
  let matrix_scale :=
    set4 matrix_scale I0 (mul_v3_fl (get4 matrix_scale I0) (get2 scale X)) in
  set4 matrix_scale I1 (mul_v3_fl (get4 matrix_scale I1) (get2 scale Y)).

(** The scale branch from "scale around pivot" on: the matrix stored in
    [mpr->matrix_offset]. *)
Definition modal_scale (transform_flag : Z) (dims : arr2 F)
    (data : RectTransformInteraction) (point_local pivot : arr2 F)
    (constrain_axis : arr2 bool) : mat4 F :=
  let scale := scale_factors dims data point_local pivot constrain_axis in
  let scale := scale_uniform transform_flag scale in
  let matrix_scale := scale_m4 scale in
  let matrix_scale :=
    transform_pivot_set_m4 matrix_scale (get2 pivot X, get2 pivot Y, f0) in
  mul_m4_m4m4 (orig_matrix_offset data) matrix_scale.

(** The pivot and the constraint flags of the scale branch:
    [constrain_axis] starts as [{false}] and [pivot] is zeroed when
    translation is not enabled. *)
Definition modal_pivot (transform_flag part : Z)
    : result (arr2 F * arr2 bool) :=
  if has_flag transform_flag ED_MANIPULATOR_CAGE2D_XFORM_FLAG_TRANSLATE
  then manipulator_rect_pivot_from_scale_part part
  else Done (zero_v2, (false, false)).

(** The three-way branch on [mpr->highlight_part]. *)
Definition modal_branch (mpr : wmManipulator) (transform_flag : Z)
    (dims : arr2 F) (data : RectTransformInteraction)
    (point_local value_xy : arr2 F) : result wmManipulator :=
  let orig := orig_matrix_offset data in
  if highlight_part mpr =? ED_MANIPULATOR_CAGE2D_PART_TRANSLATE then
    let mpr := set_matrix_offset mpr orig in
    let mpr :=
      set_matrix_offset mpr
        (mset (matrix_offset mpr) I3 I0 (mget orig I3 I0 + get2 value_xy X)) in
    Done
      (set_matrix_offset mpr
         (mset (matrix_offset mpr) I3 I1 (mget orig I3 I1 + get2 value_xy Y)))
  else if highlight_part mpr =? ED_MANIPULATOR_CAGE2D_PART_ROTATE then
    Done mpr
  else
    let mpr := set_matrix_offset mpr orig in
    match modal_pivot transform_flag (highlight_part mpr) with
    | Abort f => Abort f
    | Done (pivot, constrain_axis) =>
        Done
          (set_matrix_offset mpr
             (modal_scale transform_flag dims data point_local pivot
                constrain_axis))
    end.

Definition manipulator_rect_transform_modal (C : bContext)
    (mpr : wmManipulator) (event : wmEvent) : result outcome :=
  match interaction_data mpr with
  | None => Abort NullInteractionData
  | Some data =>
      let dims := dimensions mpr in
      let matrix_back := matrix_offset mpr in
      let ok :=
        manipulator_window_project_2d C
          (set_matrix_offset mpr (orig_matrix_offset data)) (mval event) false in
      let mpr := set_matrix_offset mpr matrix_back in
      match ok with
      | None =>
          Done {| out_mpr := mpr; out_requests := [];
                  out_status := OPERATOR_RUNNING_MODAL |}
      | Some point_local =>
          let transform_flag := transform mpr in
          let value_xy : arr2 F :=
            (get2 point_local X - get2 (orig_mouse data) X,
             get2 point_local Y - get2 (orig_mouse data) Y) in
          let mpr := target_property_value_get mpr in
          match modal_branch mpr transform_flag dims data point_local value_xy with
          | Abort f => Abort f
          | Done mpr =>
              Done {| out_mpr := target_property_value_set mpr (matrix_offset mpr);
                      out_requests := [RegionTagRedraw; EventAddMousemove];
                      out_status := OPERATOR_RUNNING_MODAL |}
          end
      end
  end.

(* ------------------------------------------------------------------ *)
(** ** manipulator_rect_transform_exit *)

Definition manipulator_rect_transform_exit (mpr : wmManipulator)
    (cancel : bool) : result wmManipulator :=
  if negb cancel then Done mpr
  else
    match interaction_data mpr with
    | None => Abort NullInteractionData
    | Some data =>
        let mpr := target_property_value_set mpr (orig_matrix_offset data) in
        Done (set_matrix_offset mpr (orig_matrix_offset data))
    end.

(* ------------------------------------------------------------------ *)
(** ** A drag session as the host drives it *)

(** The pointer moves of one session, each with the context it is
    delivered in. *)
Fixpoint run_modal (mpr : wmManipulator) (moves : list (bContext * wmEvent))
    : result wmManipulator :=
  match moves with
  | [] => Done mpr
  | (C, event) :: moves =>
      match manipulator_rect_transform_modal C mpr event with
      | Abort f => Abort f
      | Done o => run_modal (out_mpr o) moves
      end
  end.

(** Press, the moves, then release ([cancel = false]) or cancel. *)
Definition drag_session (C : bContext) (mpr : wmManipulator) (press : wmEvent)
    (moves : list (bContext * wmEvent)) (cancel : bool) : result wmManipulator :=
  match run_modal (out_mpr (manipulator_rect_transform_invoke C mpr press)) moves with
  | Abort f => Abort f
  | Done mpr => manipulator_rect_transform_exit mpr cancel
  end.

End Cage2D.

Arguments RectTransformInteraction F : clear implicits.
Arguments wmManipulator F : clear implicits.
Arguments bContext F : clear implicits.
Arguments outcome F : clear implicits.

(* ------------------------------------------------------------------ *)
(** ** Drawing *)

(** Modelled from the spec: the rendering primitives are the host's.  A
    draw callback is read as the list of calls it makes, in order: the
    immediate-mode calls of GPU_immediate.h, the matrix stack of
    GPU_matrix.h, [glLineWidth] and [GPU_select_load_id]. *)
Inductive gl_shader : Type :=
| GPU_SHADER_2D_UNIFORM_COLOR
| GPU_SHADER_2D_FLAT_COLOR.

Inductive gl_prim : Type :=
| GWN_PRIM_LINES
| GWN_PRIM_TRI_FAN
| GWN_PRIM_LINE_STRIP.

(** The two vertex attributes the file declares, "pos" and "color". *)
Inductive gl_attr : Type := ATTR_pos | ATTR_color.

Section Drawing.
Context {F : Type} `{FloatOps F}.
Local Open Scope fl_scope.

Inductive gl_op : Type :=
| ImmVertexFormat
| VertFormatAttrAdd (attr : gl_attr) (comp_len : Z)
| ImmBindBuiltinProgram (shader : gl_shader)
| ImmUniformColor3fv (r g b : F)
| ImmBegin (prim : gl_prim) (vertex_len : Z)
| ImmVertex2f (x y : F)
| ImmAttrib3f (r g b : F)
| ImmEnd
| ImmUnbindProgram
| GlLineWidth (width : F)
| GpuPushMatrix
| GpuMultMatrix (m : mat4 F)
| GpuPopMatrix
| GpuSelectLoadId (id : Z).

(** Modelled from the spec: the fields of [wmManipulator] that only drawing
    reads, [color], [line_width] and [state], with the results of the two
    host helpers the draw callbacks call on the manipulator:
    [WM_manipulator_calc_matrix_final] and, for each value of its
    [highlight] argument, [manipulator_color_get]. *)
Record wmManipulatorDraw : Type := {
  color : arr4 F;
  line_width : F;
  state : Z;
  calc_matrix_final : mat4 F;
  manipulator_color_get : bool -> arr4 F
}.

(** The sixteen vertices of [rect_transform_draw_corners], two segments at
    each corner of [r]. *)
Definition rect_transform_draw_corners (r : rctf) (offsetx offsety : F)
    (color3 : F * F * F) : list gl_op :=
  let '(cr, cg, cb) := color3 in
  [ ImmVertexFormat; VertFormatAttrAdd ATTR_pos 2;
    ImmBindBuiltinProgram GPU_SHADER_2D_UNIFORM_COLOR;
    ImmUniformColor3fv cr cg cb;
    ImmBegin GWN_PRIM_LINES 16;
    ImmVertex2f (xmin r) (ymin r + offsety);
    ImmVertex2f (xmin r) (ymin r);
    ImmVertex2f (xmin r) (ymin r);
    ImmVertex2f (xmin r + offsetx) (ymin r);
    ImmVertex2f (xmax r) (ymin r + offsety);
    ImmVertex2f (xmax r) (ymin r);
    ImmVertex2f (xmax r) (ymin r);
    ImmVertex2f (xmax r - offsetx) (ymin r);
    ImmVertex2f (xmax r) (ymax r - offsety);
    ImmVertex2f (xmax r) (ymax r);
    ImmVertex2f (xmax r) (ymax r);
    ImmVertex2f (xmax r - offsetx) (ymax r);
    ImmVertex2f (xmin r) (ymax r - offsety);
    ImmVertex2f (xmin r) (ymax r);
    ImmVertex2f (xmin r) (ymax r);
    ImmVertex2f (xmin r + offsetx) (ymax r);
    ImmEnd;
    ImmUnbindProgram ].

(** The [switch] of [rect_transform_draw_interaction]: the vertices
    [verts[0 .. verts_len - 1]] of a part, [None] in the [default] case
    that returns at once. *)
Definition interaction_verts (highlighted : Z) (size margin : arr2 F)
    : option (list (arr2 F)) :=
  let sx := get2 size X in
  let sy := get2 size Y in
  let mx := get2 margin X in
  let my := get2 margin Y in
  if highlighted =? ED_MANIPULATOR_CAGE2D_PART_SCALE_MIN_X
  then Some [(- sx + mx, - sy); (- sx, - sy); (- sx, sy)]
  else if highlighted =? ED_MANIPULATOR_CAGE2D_PART_SCALE_MAX_X
  then Some [(sx - mx, - sy); (sx, - sy); (sx, sy)]
  else if highlighted =? ED_MANIPULATOR_CAGE2D_PART_SCALE_MIN_Y
  then Some [(- sx, - sy + my); (- sx, - sy); (sx, - sy)]
  else if highlighted =? ED_MANIPULATOR_CAGE2D_PART_SCALE_MAX_Y
  then Some [(- sx, sy - my); (- sx, sy); (sx, sy)]
  else if highlighted =? ED_MANIPULATOR_CAGE2D_PART_SCALE_MIN_X_MIN_Y
  then Some [(- sx + mx, - sy); (- sx + mx, - sy + my); (- sx, - sy + my)]
  else if highlighted =? ED_MANIPULATOR_CAGE2D_PART_SCALE_MIN_X_MAX_Y
  then Some [(- sx + mx, sy); (- sx + mx, sy - my); (- sx, sy - my)]
  else if highlighted =? ED_MANIPULATOR_CAGE2D_PART_SCALE_MAX_X_MIN_Y
  then Some [(sx - mx, - sy); (sx - mx, - sy + my); (sx, - sy + my)]
  else if highlighted =? ED_MANIPULATOR_CAGE2D_PART_SCALE_MAX_X_MAX_Y
  then Some [(sx - mx, sy); (sx - mx, sy - my); (sx, sy - my)]
  else if highlighted =? ED_MANIPULATOR_CAGE2D_PART_ROTATE
  then
    let rotate_pt : arr2 F := (f0, sy + my) in
    let r_rotate :=
      {| xmin := get2 rotate_pt X - mx / f_of_Z 2;
         xmax := get2 rotate_pt X + mx / f_of_Z 2;
         ymin := get2 rotate_pt Y - my / f_of_Z 2;
         ymax := get2 rotate_pt Y + my / f_of_Z 2 |} in
    Some [ (xmin r_rotate, ymin r_rotate); (xmin r_rotate, ymax r_rotate);
           (xmax r_rotate, ymax r_rotate); (xmax r_rotate, ymin r_rotate) ]
  else if highlighted =? ED_MANIPULATOR_CAGE2D_PART_TRANSLATE
  then Some [(- sx, - sy); (- sx, sy); (sx, sy); (sx, - sy)]
  else None.

(** The loop [for (uint i = 0; i < verts_len; i++) immVertex2fv(...)]. *)
Definition imm_verts (verts : list (arr2 F)) : list gl_op :=
  map (fun v => ImmVertex2f (get2 v X) (get2 v Y)) verts.

Definition rect_transform_draw_interaction (color : arr4 F) (highlighted : Z)
    (size margin : arr2 F) (line_width : F) : list gl_op :=
  match interaction_verts highlighted size margin with
  | None => []
  | Some verts =>
      let verts_len := Z.of_nat (length verts) in
      [ ImmVertexFormat; VertFormatAttrAdd ATTR_pos 2;
        VertFormatAttrAdd ATTR_color 3;
        ImmBindBuiltinProgram GPU_SHADER_2D_FLAT_COLOR ]
      ++ (if highlighted =? ED_MANIPULATOR_CAGE2D_PART_TRANSLATE
          then
            [ImmBegin GWN_PRIM_TRI_FAN 4; ImmAttrib3f f0 f0 f0]
            ++ imm_verts verts ++ [ImmEnd]
          else
            [ GlLineWidth (line_width + f_of_Z 3);
              ImmBegin GWN_PRIM_LINE_STRIP verts_len; ImmAttrib3f f0 f0 f0 ]
            ++ imm_verts verts
            ++ [ ImmEnd; GlLineWidth line_width;
                 ImmBegin GWN_PRIM_LINE_STRIP verts_len;
                 ImmAttrib3f (a0 color) (a1 color) (a2 color) ]
            ++ imm_verts verts ++ [ImmEnd])
      ++ [ImmUnbindProgram]
  end.

(** [manipulator_rect_transform_draw_intern].  The block under
    [if (false)] is dead and left out; [size] and [margin] are computed as
    in the hit test. *)
Definition manipulator_rect_transform_draw_intern (mpr : wmManipulator F)
    (look : wmManipulatorDraw) (select highlight : bool) (select_id : Z)
    : list gl_op :=
  let dims := dimensions mpr in
  let transform_flag := transform mpr in
  let size := cage_size dims in
  let r :=
    {| xmin := - get2 size X; ymin := - get2 size Y;
       xmax := get2 size X; ymax := get2 size Y |} in
  let margin := cage_margin dims in
  let draw_part (part : Z) :=
    rect_transform_draw_interaction (color look) part size margin
      (line_width look) in
  [ GpuPushMatrix; GpuMultMatrix (calc_matrix_final look);
    GlLineWidth (line_width look + f_of_Z 3) ]
  ++ rect_transform_draw_corners r (get2 margin X) (get2 margin Y)
       (f0, f0, f0)
  ++ (let color := manipulator_color_get look highlight in
      GlLineWidth (line_width look)
      :: rect_transform_draw_corners r (get2 margin X) (get2 margin Y)
           (a0 color, a1 color, a2 color))
  ++ (if select then
        (if has_flag transform_flag ED_MANIPULATOR_CAGE2D_XFORM_FLAG_SCALE
         then
           flat_map
             (fun part => GpuSelectLoadId (Z.lor select_id part) :: draw_part part)
             scale_parts
         else [])
        ++ (if has_flag transform_flag ED_MANIPULATOR_CAGE2D_XFORM_FLAG_TRANSLATE
            then
              let transform_part := ED_MANIPULATOR_CAGE2D_PART_TRANSLATE in
              GpuSelectLoadId (Z.lor select_id transform_part)
              :: draw_part transform_part
            else [])
        ++ (if has_flag transform_flag ED_MANIPULATOR_CAGE2D_XFORM_FLAG_ROTATE
            then draw_part ED_MANIPULATOR_CAGE2D_PART_ROTATE
            else [])
      else
        (if negb (highlight_part mpr =? ED_MANIPULATOR_CAGE2D_PART_TRANSLATE)
         then draw_part (highlight_part mpr)
         else [])
        ++ (if has_flag transform_flag ED_MANIPULATOR_CAGE2D_XFORM_FLAG_ROTATE
            then draw_part ED_MANIPULATOR_CAGE2D_PART_ROTATE
            else []))
  ++ [GlLineWidth (f_of_Z 1); GpuPopMatrix].

Definition manipulator_rect_transform_draw_select (mpr : wmManipulator F)
    (look : wmManipulatorDraw) (select_id : Z) : list gl_op :=
  manipulator_rect_transform_draw_intern mpr look true false select_id.

End Drawing.

Arguments gl_op F : clear implicits.
Arguments wmManipulatorDraw F : clear implicits.

(* ------------------------------------------------------------------ *)
(** ** manipulator_rect_transform_draw, _get_cursor and _setup *)

(** Modelled from the spec: the cursors of the cursor hint contract; their
    codes are in headers outside this file, so they are kept as names. *)
Inductive cursor : Type :=
| CURSOR_STD
| BC_HANDCURSOR
| CURSOR_X_MOVE
| CURSOR_Y_MOVE
| BC_NSEW_SCROLLCURSOR
| BC_CROSSCURSOR.

Section HostFlags.
Context {F : Type} `{FloatOps F}.

(** The flag values of the window manager's headers, outside this file:
    [WM_MANIPULATOR_STATE_HIGHLIGHT], [WM_MANIPULATORGROUPTYPE_3D],
    [WM_MANIPULATOR_DRAW_MODAL] and [WM_MANIPULATOR_DRAW_NO_SCALE]. *)
Variable WM_MANIPULATOR_STATE_HIGHLIGHT : Z.
Variable WM_MANIPULATORGROUPTYPE_3D : Z.
Variable WM_MANIPULATOR_DRAW_MODAL : Z.
Variable WM_MANIPULATOR_DRAW_NO_SCALE : Z.

Definition manipulator_rect_transform_draw (mpr : wmManipulator F)
    (look : wmManipulatorDraw F) : list (gl_op F) :=
  let is_highlight :=
    negb (Z.land (state look) WM_MANIPULATOR_STATE_HIGHLIGHT =? 0) in
  manipulator_rect_transform_draw_intern mpr look false is_highlight (-1).

(** [group_type_flag] is [mpr->parent_mgroup->type->flag]. *)
Definition manipulator_rect_transform_get_cursor (group_type_flag : Z)
    (mpr : wmManipulator F) : cursor :=
  let highlight_part := highlight_part mpr in
  if has_flag group_type_flag WM_MANIPULATORGROUPTYPE_3D
  then BC_NSEW_SCROLLCURSOR
  else if highlight_part =? ED_MANIPULATOR_CAGE2D_PART_TRANSLATE
  then BC_HANDCURSOR
  else if (highlight_part =? ED_MANIPULATOR_CAGE2D_PART_SCALE_MIN_X)
          || (highlight_part =? ED_MANIPULATOR_CAGE2D_PART_SCALE_MAX_X)
  then CURSOR_X_MOVE
  else if (highlight_part =? ED_MANIPULATOR_CAGE2D_PART_SCALE_MIN_Y)
          || (highlight_part =? ED_MANIPULATOR_CAGE2D_PART_SCALE_MAX_Y)
  then CURSOR_Y_MOVE
  else if (highlight_part =? ED_MANIPULATOR_CAGE2D_PART_SCALE_MIN_X_MIN_Y)
          || (highlight_part =? ED_MANIPULATOR_CAGE2D_PART_SCALE_MAX_X_MIN_Y)
  then BC_NSEW_SCROLLCURSOR
  else if (highlight_part =? ED_MANIPULATOR_CAGE2D_PART_SCALE_MIN_X_MAX_Y)
          || (highlight_part =? ED_MANIPULATOR_CAGE2D_PART_SCALE_MAX_X_MAX_Y)
  then BC_NSEW_SCROLLCURSOR
  else if highlight_part =? ED_MANIPULATOR_CAGE2D_PART_ROTATE
  then BC_CROSSCURSOR
  else CURSOR_STD.

(** [mpr->flag |= WM_MANIPULATOR_DRAW_MODAL | WM_MANIPULATOR_DRAW_NO_SCALE],
    on the value of [mpr->flag]. *)
Definition manipulator_rect_transform_setup (flag : Z) : Z :=
  Z.lor flag (Z.lor WM_MANIPULATOR_DRAW_MODAL WM_MANIPULATOR_DRAW_NO_SCALE).

End HostFlags.

(* ------------------------------------------------------------------ *)
(** ** Vocabulary of the properties *)

Section Vocabulary.
Context {F : Type} `{FloatOps F}.
Local Open Scope fl_scope.

(** The four edge parts. *)
Definition edge_parts : list Z :=
  [ ED_MANIPULATOR_CAGE2D_PART_SCALE_MIN_X;
    ED_MANIPULATOR_CAGE2D_PART_SCALE_MAX_X;
    ED_MANIPULATOR_CAGE2D_PART_SCALE_MIN_Y;
    ED_MANIPULATOR_CAGE2D_PART_SCALE_MAX_Y ].

(** The four corner parts. *)
Definition corner_parts : list Z :=
  [ ED_MANIPULATOR_CAGE2D_PART_SCALE_MIN_X_MIN_Y;
    ED_MANIPULATOR_CAGE2D_PART_SCALE_MIN_X_MAX_Y;
    ED_MANIPULATOR_CAGE2D_PART_SCALE_MAX_X_MIN_Y;
    ED_MANIPULATOR_CAGE2D_PART_SCALE_MAX_X_MAX_Y ].

(** The ten parts of the cage. *)
Definition cage_parts : list Z :=
  ED_MANIPULATOR_CAGE2D_PART_TRANSLATE
  :: ED_MANIPULATOR_CAGE2D_PART_ROTATE :: scale_parts.

(** The coordinates a pivot may take: [-0.5], [0] and [0.5]. *)
Definition pivot_coordinates : list F := [- f_half; f0; f_half].

(** The status and the requests of an update that went through. *)
Definition modal_done (mpr : wmManipulator F) : outcome F :=
  {| out_mpr := target_property_value_set mpr (matrix_offset mpr);
     out_requests := [RegionTagRedraw; EventAddMousemove];
     out_status := OPERATOR_RUNNING_MODAL |}.

(** [value_xy], the pointer's move since the press. *)
Definition pointer_delta (data : RectTransformInteraction F)
    (point_local : arr2 F) : arr2 F :=
  (get2 point_local X - get2 (orig_mouse data) X,
   get2 point_local Y - get2 (orig_mouse data) Y).

(** A point in none of the enabled regions: the geometric miss. *)
Definition geometric_miss (transform_flag : Z) (dims point_local : arr2 F)
    : Prop :=
  let size := cage_size dims in
  let margin := cage_margin dims in
  (has_flag transform_flag ED_MANIPULATOR_CAGE2D_XFORM_FLAG_TRANSLATE = false
   \/ BLI_rctf_isect_pt_v (rect_translate size margin) point_local = false)
  /\ (has_flag transform_flag
        (Z.lor ED_MANIPULATOR_CAGE2D_XFORM_FLAG_SCALE
               ED_MANIPULATOR_CAGE2D_XFORM_FLAG_SCALE_UNIFORM) = false
      \/ test_select_scale size margin point_local = None)
  /\ (has_flag transform_flag ED_MANIPULATOR_CAGE2D_XFORM_FLAG_ROTATE = false
      \/ BLI_rctf_isect_pt_v (rect_rotate size margin) point_local = false).

(** The factor of one axis in the words of the design: a constrained axis
    keeps [1]; otherwise both deltas are negated (multiplied by [-1.0f], as
    the source does) when the original one is negative, and the factor is
    [1 + (deltaCurr - deltaOrig) / length]. *)
Definition spec_axis_scale (constrained : bool)
    (deltaOrig deltaCurr length : F) : F :=
  if constrained then f1
  else if deltaOrig <? f0
  then f1 + (deltaCurr * - f1 - deltaOrig * - f1) / length
  else f1 + (deltaCurr - deltaOrig) / length.

(** The two factors in the words of the design, from the deltas to the
    pivot divided by (width, height) and the lengths of the first two basis
    vectors of the pre-drag matrix. *)
Definition spec_scale_factors (dims : arr2 F) (data : RectTransformInteraction F)
    (point_local pivot : arr2 F) (constrain_axis : arr2 bool) : arr2 F :=
  let deltaOrig (i : ix2) :=
    (get2 (orig_mouse data) i - get2 pivot i) / get2 dims i in
  let deltaCurr (i : ix2) :=
    (get2 point_local i - get2 pivot i) / get2 dims i in
  let length (i : ix2) :=
    len_v3 (get4 (orig_matrix_offset data) (ix2_to_ix4 i)) in
  (spec_axis_scale (get2 constrain_axis X) (deltaOrig X) (deltaCurr X) (length X),
   spec_axis_scale (get2 constrain_axis Y) (deltaOrig Y) (deltaCurr Y) (length Y)).

(** Translate by [-pivot], scale, translate by [+pivot]. *)
Definition spec_recentered_scale (scale pivot : arr2 F) : mat4 F :=
  mul_m4_m4m4
    (mul_m4_m4m4 (translate_m4 (get2 pivot X, get2 pivot Y, f0))
       (scale_m4 scale))
    (translate_m4 (- get2 pivot X, - get2 pivot Y, - f0)).

End Vocabulary.

(* ------------------------------------------------------------------ *)
(** ** Vocabulary of the further properties *)

Section MoreVocabulary.
Context {F : Type} `{FloatOps F}.
Local Open Scope fl_scope.

(** The scale block of the hit test is enabled by either scale flag. *)
Definition scale_hit_enabled (transform_flag : Z) : bool :=
  has_flag transform_flag
    (Z.lor ED_MANIPULATOR_CAGE2D_XFORM_FLAG_SCALE
           ED_MANIPULATOR_CAGE2D_XFORM_FLAG_SCALE_UNIFORM).

(** The translate test of the hit test answers for the point. *)
Definition translate_hit (transform_flag : Z) (dims point_local : arr2 F)
    : bool :=
  has_flag transform_flag ED_MANIPULATOR_CAGE2D_XFORM_FLAG_TRANSLATE
  && BLI_rctf_isect_pt_v
       (rect_translate (cage_size dims) (cage_margin dims)) point_local.

(** The x range of one rectangle with the y range of another. *)
Definition rect_cross (rx ry : @rctf F) : @rctf F :=
  {| xmin := xmin rx; xmax := xmax rx; ymin := ymin ry; ymax := ymax ry |}.

(** The rectangle in which the hit test answers a scale part or the rotate
    handle: a margin strip for an edge, the crossing of two strips for a
    corner, the hot spot for the rotate handle. *)
Definition hit_region (part : Z) (size margin : arr2 F)
    : option (@rctf F) :=
  if part =? ED_MANIPULATOR_CAGE2D_PART_SCALE_MIN_X
  then Some (rect_xmin size margin)
  else if part =? ED_MANIPULATOR_CAGE2D_PART_SCALE_MAX_X
  then Some (rect_xmax size margin)
  else if part =? ED_MANIPULATOR_CAGE2D_PART_SCALE_MIN_Y
  then Some (rect_ymin size margin)
  else if part =? ED_MANIPULATOR_CAGE2D_PART_SCALE_MAX_Y
  then Some (rect_ymax size margin)
  else if part =? ED_MANIPULATOR_CAGE2D_PART_SCALE_MIN_X_MIN_Y
  then Some (rect_cross (rect_xmin size margin) (rect_ymin size margin))
  else if part =? ED_MANIPULATOR_CAGE2D_PART_SCALE_MIN_X_MAX_Y
  then Some (rect_cross (rect_xmin size margin) (rect_ymax size margin))
  else if part =? ED_MANIPULATOR_CAGE2D_PART_SCALE_MAX_X_MIN_Y
  then Some (rect_cross (rect_xmax size margin) (rect_ymin size margin))
  else if part =? ED_MANIPULATOR_CAGE2D_PART_SCALE_MAX_X_MAX_Y
  then Some (rect_cross (rect_xmax size margin) (rect_ymax size margin))
  else if part =? ED_MANIPULATOR_CAGE2D_PART_ROTATE
  then Some (rect_rotate size margin)
  else None.

(** The four corners of a rectangle. *)
Definition rect_corners (r : @rctf F) : list (arr2 F) :=
  [(xmin r, ymin r); (xmin r, ymax r); (xmax r, ymax r); (xmax r, ymin r)].

(** The local matrix mirrors the bound property, or nothing is bound. *)
Definition mirrored (mpr : wmManipulator F) : Prop :=
  target_matrix mpr = None \/ target_matrix mpr = Some (matrix_offset mpr).

(** What the calls of a draw callback leave open: whether a shader program
    is bound, the vertices still owed to the batch begun last, and the
    depth of the matrix stack. *)
Record gl_state : Type := {
  program_bound : bool;
  batch : option Z;
  matrix_depth : nat
}.

Definition gl_idle (depth : nat) : gl_state :=
  {| program_bound := false; batch := None; matrix_depth := depth |}.

(** One call, when it respects the discipline of the calls: a program is
    bound before it is used and unbound before the next is bound, a batch
    is begun under a bound program, holds attributes and vertices only,
    and ends when exactly the announced number of vertices was given; the
    matrix stack is never popped below its depth at entry. *)
Definition gl_step (st : gl_state) (op : gl_op F) : option gl_state :=
  match batch st, op with
  | Some n, ImmVertex2f _ _ =>
      if 0 <? n
      then Some {| program_bound := program_bound st; batch := Some (n - 1);
                   matrix_depth := matrix_depth st |}
      else None
  | Some _, ImmAttrib3f _ _ _ => Some st
  | Some n, ImmEnd =>
      if n =? 0
      then Some {| program_bound := program_bound st; batch := None;
                   matrix_depth := matrix_depth st |}
      else None
  | Some _, _ => None
  | None, ImmVertexFormat | None, VertFormatAttrAdd _ _ =>
      if program_bound st then None else Some st
  | None, ImmBindBuiltinProgram _ =>
      if program_bound st then None
      else Some {| program_bound := true; batch := None;
                   matrix_depth := matrix_depth st |}
  | None, ImmUniformColor3fv _ _ _ =>
      if program_bound st then Some st else None
  | None, ImmBegin _ n =>
      if program_bound st && (0 <=? n)
      then Some {| program_bound := true; batch := Some n;
                   matrix_depth := matrix_depth st |}
      else None
  | None, ImmUnbindProgram =>
      if program_bound st
      then Some {| program_bound := false; batch := None;
                   matrix_depth := matrix_depth st |}
      else None
  | None, GlLineWidth _ | None, GpuMultMatrix _ | None, GpuSelectLoadId _ =>
      Some st
  | None, GpuPushMatrix =>
      Some {| program_bound := program_bound st; batch := None;
              matrix_depth := S (matrix_depth st) |}
  | None, GpuPopMatrix =>
      match matrix_depth st with
      | S depth =>
          Some {| program_bound := program_bound st; batch := None;
                  matrix_depth := depth |}
      | O => None
      end
  | None, _ => None
  end%Z.

Fixpoint gl_run (st : gl_state) (ops : list (gl_op F)) : option gl_state :=
  match ops with
  | [] => Some st
  | op :: ops =>
      match gl_step st op with
      | Some st => gl_run st ops
      | None => None
      end
  end.

(** Calls that can be made when nothing is open and leave nothing open. *)
Definition gl_closed (ops : list (gl_op F)) : Prop :=
  forall depth, gl_run (gl_idle depth) ops = Some (gl_idle depth).

(** The ids given to [GPU_select_load_id], in order. *)
Fixpoint loaded_ids (ops : list (gl_op F)) : list Z :=
  match ops with
  | [] => []
  | GpuSelectLoadId id :: ops => id :: loaded_ids ops
  | _ :: ops => loaded_ids ops
  end.

(** The call begins a triangle fan. *)
Definition is_tri_fan (op : gl_op F) : bool :=
  match op with
  | ImmBegin GWN_PRIM_TRI_FAN _ => true
  | _ => false
  end.

(** Some batch of the calls is a triangle fan. *)
Definition draws_tri_fan (ops : list (gl_op F)) : bool :=
  existsb is_tri_fan ops.

End MoreVocabulary.

(* ------------------------------------------------------------------ *)
(** ** Sample sessions in binary32 *)

Module Sample.
Local Open Scope fl_scope.

(** A 2D view in which a pointer position, in pixels, is brought to local
    space by dividing by [unit]. *)
Definition pixel_context (unit : Z) : bContext Binary32.t :=
  {| window_project_2d := fun _ mval _ =>
       Some (f_of_Z (fst mval) / f_of_Z unit, f_of_Z (snd mval) / f_of_Z unit) |}.

(** A view in which no pointer position can be projected. *)
Definition blind_context : bContext Binary32.t :=
  {| window_project_2d := fun _ _ _ => None |}.

Definition pointer_at (x y : Z) : wmEvent := {| mval := (x, y) |}.

(** An idle cage with the identity as its matrix, bound to a property that
    mirrors it. *)
Definition cage (width height transform_flag part : Z) : wmManipulator Binary32.t :=
  {| dimensions := (f_of_Z width, f_of_Z height);
     transform := transform_flag;
     matrix_offset := unit_m4;
     highlight_part := part;
     interaction_data := None;
     target_matrix := Some unit_m4 |}.

Definition all_transforms : Z :=
  Z.lor ED_MANIPULATOR_CAGE2D_XFORM_FLAG_TRANSLATE
    (Z.lor ED_MANIPULATOR_CAGE2D_XFORM_FLAG_ROTATE
       (Z.lor ED_MANIPULATOR_CAGE2D_XFORM_FLAG_SCALE
          ED_MANIPULATOR_CAGE2D_XFORM_FLAG_SCALE_UNIFORM)).

Definition translate_and_scale : Z :=
  Z.lor ED_MANIPULATOR_CAGE2D_XFORM_FLAG_TRANSLATE
    ED_MANIPULATOR_CAGE2D_XFORM_FLAG_SCALE.

Definition translate_and_uniform_scale : Z :=
  Z.lor translate_and_scale ED_MANIPULATOR_CAGE2D_XFORM_FLAG_SCALE_UNIFORM.

(** The manipulator after a press. *)
Definition pressed (C : bContext Binary32.t) (mpr : wmManipulator Binary32.t) (press : wmEvent)
    : wmManipulator Binary32.t :=
  out_mpr (manipulator_rect_transform_invoke C mpr press).

(** What a press at the pixel [(x, y)] remembers on an identity cage. *)
Definition press_data (unit x y : Z) : RectTransformInteraction Binary32.t :=
  {| orig_mouse := (f_of_Z x / f_of_Z unit, f_of_Z y / f_of_Z unit);
     orig_matrix_offset := unit_m4 |}.

(** A 200 x 200 cage whose translate area is pressed at the centre. *)
Definition translate_drag : wmManipulator Binary32.t :=
  pressed (pixel_context 1)
    (cage 200 200 all_transforms ED_MANIPULATOR_CAGE2D_PART_TRANSLATE)
    (pointer_at 0 0).

(** The same cage with the rotate handle pressed. *)
Definition rotate_drag : wmManipulator Binary32.t :=
  pressed (pixel_context 1)
    (cage 200 200 all_transforms ED_MANIPULATOR_CAGE2D_PART_ROTATE)
    (pointer_at 0 110).

(** A 1 x 1 cage whose right edge, at local [(0.5, 0)], is pressed. *)
Definition scale_drag (transform_flag : Z) : wmManipulator Binary32.t :=
  pressed (pixel_context 4)
    (cage 1 1 transform_flag ED_MANIPULATOR_CAGE2D_PART_SCALE_MAX_X)
    (pointer_at 2 0).

(** Three moves of a translate drag, the second one not projectable. *)
Definition translate_moves : list (bContext Binary32.t * wmEvent) :=
  [ (pixel_context 1, pointer_at 5 (-3));
    (blind_context, pointer_at 9 9);
    (pixel_context 1, pointer_at 7 2) ].

(** The manipulator after those moves. *)
Definition translate_moved : wmManipulator Binary32.t :=
  match run_modal translate_drag translate_moves with
  | Done mpr => mpr
  | Abort _ => translate_drag
  end.

End Sample.

(* ------------------------------------------------------------------ *)
(** ** Sample hits and updates in binary32 *)

Module SampleViews.
Import Sample.
Local Open Scope fl_scope.

(** The 200 x 200 cage with every transform enabled and no part active:
    its margin is 10, its inner rectangle spans [-90, 90]. *)
Definition idle_cage : wmManipulator Binary32.t :=
  cage 200 200 all_transforms (-1).

(** The same cage with a part active. *)
Definition cage_on (part : Z) : wmManipulator Binary32.t :=
  cage 200 200 all_transforms part.

(** A pointer in the left and the bottom strip, and one in the left strip
    only. *)
Definition corner_pointer : wmEvent := pointer_at (-95) (-95).
Definition edge_pointer : wmEvent := pointer_at (-95) 0.

(** The first update of the translate drag, the pointer at [(5, -3)]. *)
Definition translate_update : outcome Binary32.t :=
  match
    manipulator_rect_transform_modal (pixel_context 1) translate_drag
      (pointer_at 5 (-3))
  with
  | Done o => o
  | Abort _ =>
      {| out_mpr := translate_drag; out_requests := []; out_status := 0 |}
  end.

End SampleViews.

(* ------------------------------------------------------------------ *)
(** * Properties *)

(** ** Arrays and records *)

Lemma get4_set4 {A} (v : arr4 A) (i j : ix4) (a : A) :
  get4 (set4 v i a) j = if ix4_eqb i j then a else get4 v j.
Proof. destruct v, i, j; reflexivity. Qed.

Lemma mget_mset {F} (m : mat4 F) (i j k l : ix4) (x : F) :
  mget (mset m i j x) k l =
  if ix4_eqb i k && ix4_eqb j l then x else mget m k l.
Proof.
  unfold mget, mset. rewrite get4_set4.
  destruct (ix4_eqb i k) eqn:E; simpl; [| reflexivity].
  rewrite get4_set4.
  destruct i, k; try discriminate E; reflexivity.
Qed.

Section Properties.
Context {F : Type} `{FloatOps F}.
Local Open Scope fl_scope.

Lemma set_matrix_offset_same (mpr : wmManipulator F) :
  set_matrix_offset mpr (matrix_offset mpr) = mpr.
Proof. now destruct mpr. Qed.

(** Membership in the list of scale parts, as the range of codes. *)
Lemma scale_parts_range (part : Z) :
  In part scale_parts <-> (1 <= part <= 8)%Z.
Proof.
  unfold scale_parts; cbn. split.
  - intros [<-|[<-|[<-|[<-|[<-|[<-|[<-|[<-|[]]]]]]]]]; cbv; split; congruence.
  - intros ?.
    assert (part = 1 \/ part = 2 \/ part = 3 \/ part = 4 \/ part = 5
            \/ part = 6 \/ part = 7 \/ part = 8)%Z as E by lia.
    cbv [ED_MANIPULATOR_CAGE2D_PART_SCALE_MIN_X
         ED_MANIPULATOR_CAGE2D_PART_SCALE_MAX_X
         ED_MANIPULATOR_CAGE2D_PART_SCALE_MIN_Y
         ED_MANIPULATOR_CAGE2D_PART_SCALE_MAX_Y
         ED_MANIPULATOR_CAGE2D_PART_SCALE_MIN_X_MIN_Y
         ED_MANIPULATOR_CAGE2D_PART_SCALE_MIN_X_MAX_Y
         ED_MANIPULATOR_CAGE2D_PART_SCALE_MAX_X_MIN_Y
         ED_MANIPULATOR_CAGE2D_PART_SCALE_MAX_X_MAX_Y].
    intuition auto.
Qed.

(** A scale part is neither the translate area nor the rotate handle. *)
Lemma scale_part_not_translate_rotate (part : Z) :
  In part scale_parts ->
  (part =? ED_MANIPULATOR_CAGE2D_PART_TRANSLATE)%Z = false
  /\ (part =? ED_MANIPULATOR_CAGE2D_PART_ROTATE)%Z = false.
Proof.
  rewrite scale_parts_range. intros ?.
  unfold ED_MANIPULATOR_CAGE2D_PART_TRANSLATE, ED_MANIPULATOR_CAGE2D_PART_ROTATE.
  split; apply Z.eqb_neq; lia.
Qed.

(** Outside the eight scale parts the switch reaches its [default]. *)
Lemma pivot_from_scale_part_default (part : Z) :
  ~ In part scale_parts ->
  manipulator_rect_pivot_from_scale_part part = Abort AssertionFailure.
Proof.
  rewrite scale_parts_range. intros N.
  unfold manipulator_rect_pivot_from_scale_part.
  repeat match goal with
  | |- context [(part =? ?c)%Z] =>
      destruct (Z.eqb_spec part c) as [E|_]; [exfalso; cbv in E; lia|]
  end.
  reflexivity.
Qed.

(** On a scale part the switch returns. *)
Lemma pivot_from_scale_part_done (part : Z) :
  In part scale_parts ->
  exists pivot constrain_axis,
    manipulator_rect_pivot_from_scale_part part = Done (pivot, constrain_axis).
Proof.
  unfold scale_parts; cbn.
  intros [<-|[<-|[<-|[<-|[<-|[<-|[<-|[<-|[]]]]]]]]]; eexists; eexists;
    reflexivity.
Qed.

(** ** The pivot table *)

(** C4.  The pivot of each of the eight scale parts lies opposite the
    dragged handle (a Min handle pivots at [+0.5] on its axis, a Max handle
    at [-0.5], an edge handle at [0] along its edge), with both coordinates
    among [-0.5], [0], [0.5]; corner parts leave both axes unconstrained,
    edge parts constrain exactly the axis along the edge; every other part
    value ends in the assertion. *)
Theorem pivot_from_scale_part_spec :
  let pivot_of := @manipulator_rect_pivot_from_scale_part F _ in
  (pivot_of ED_MANIPULATOR_CAGE2D_PART_SCALE_MIN_X
     = Done ((f_half, f0), (false, true))
   /\ pivot_of ED_MANIPULATOR_CAGE2D_PART_SCALE_MAX_X
     = Done ((- f_half, f0), (false, true))
   /\ pivot_of ED_MANIPULATOR_CAGE2D_PART_SCALE_MIN_Y
     = Done ((f0, f_half), (true, false))
   /\ pivot_of ED_MANIPULATOR_CAGE2D_PART_SCALE_MAX_Y
     = Done ((f0, - f_half), (true, false))
   /\ pivot_of ED_MANIPULATOR_CAGE2D_PART_SCALE_MIN_X_MIN_Y
     = Done ((f_half, f_half), (false, false))
   /\ pivot_of ED_MANIPULATOR_CAGE2D_PART_SCALE_MIN_X_MAX_Y
     = Done ((f_half, - f_half), (false, false))
   /\ pivot_of ED_MANIPULATOR_CAGE2D_PART_SCALE_MAX_X_MIN_Y
     = Done ((- f_half, f_half), (false, false))
   /\ pivot_of ED_MANIPULATOR_CAGE2D_PART_SCALE_MAX_X_MAX_Y
     = Done ((- f_half, - f_half), (false, false)))
  /\ Forall (fun part =>
       exists pivot constrain_axis,
         pivot_of part = Done (pivot, constrain_axis)
         /\ In (get2 pivot X) pivot_coordinates
         /\ In (get2 pivot Y) pivot_coordinates) scale_parts
  /\ Forall (fun part =>
       exists pivot, pivot_of part = Done (pivot, (false, false))) corner_parts
  /\ Forall (fun part =>
       exists pivot constrain_axis,
         pivot_of part = Done (pivot, constrain_axis)
         /\ xorb (get2 constrain_axis X) (get2 constrain_axis Y) = true
         /\ (get2 constrain_axis X = true -> get2 pivot X = f0)
         /\ (get2 constrain_axis Y = true -> get2 pivot Y = f0)) edge_parts
  /\ forall part : Z,
       In part scale_parts \/ pivot_of part = Abort AssertionFailure.
Proof.
  cbv zeta. split; [| split; [| split; [| split]]].
  - repeat split; reflexivity.
  - unfold scale_parts, pivot_coordinates.
    repeat constructor; eexists; eexists;
      (split; [reflexivity | cbn; auto]).
  - unfold corner_parts. repeat constructor; eexists; reflexivity.
  - unfold edge_parts.
    repeat constructor; eexists; eexists;
      (split; [reflexivity | cbn; repeat split; auto; discriminate]).
  - intros part.
    destruct (in_dec Z.eq_dec part scale_parts) as [I|N]; [now left | right].
    now apply pivot_from_scale_part_default.
Qed.

(** ** One modal update *)

(** An update whose projection succeeds is the refresh from the bound
    property, the branch on the active part, and the push back. *)
Lemma modal_projected (C : bContext F) (mpr : wmManipulator F)
    (event : wmEvent) (data : RectTransformInteraction F)
    (point_local : arr2 F) :
  interaction_data mpr = Some data ->
  manipulator_window_project_2d C
    (set_matrix_offset mpr (orig_matrix_offset data)) (mval event) false
    = Some point_local ->
  manipulator_rect_transform_modal C mpr event =
  match
    modal_branch (target_property_value_get mpr) (transform mpr)
      (dimensions mpr) data point_local (pointer_delta data point_local)
  with
  | Abort f => Abort f
  | Done mpr' => Done (modal_done mpr')
  end.
Proof.
  intros Hd Hp. unfold manipulator_rect_transform_modal.
  rewrite Hd, Hp. cbv zeta. rewrite set_matrix_offset_same. reflexivity.
Qed.

(** An update whose projection fails gives the manipulator back. *)
Lemma modal_not_projected (C : bContext F) (mpr : wmManipulator F)
    (event : wmEvent) (data : RectTransformInteraction F) :
  interaction_data mpr = Some data ->
  manipulator_window_project_2d C
    (set_matrix_offset mpr (orig_matrix_offset data)) (mval event) false
    = None ->
  manipulator_rect_transform_modal C mpr event =
  Done {| out_mpr := mpr; out_requests := [];
          out_status := OPERATOR_RUNNING_MODAL |}.
Proof.
  intros Hd Hp. unfold manipulator_rect_transform_modal.
  rewrite Hd, Hp. cbv zeta. rewrite set_matrix_offset_same. reflexivity.
Qed.

(** The refresh and the push leave everything but the two matrices. *)
Lemma target_property_value_get_fields (mpr : wmManipulator F) :
  let mpr' := target_property_value_get mpr in
  dimensions mpr' = dimensions mpr /\ transform mpr' = transform mpr
  /\ highlight_part mpr' = highlight_part mpr
  /\ interaction_data mpr' = interaction_data mpr
  /\ target_matrix mpr' = target_matrix mpr
  /\ matrix_offset mpr' =
     match target_matrix mpr with Some v => v | None => matrix_offset mpr end.
Proof.
  unfold target_property_value_get.
  destruct (target_matrix mpr) eqn:E; cbn; rewrite ?E; repeat split.
Qed.

Lemma target_property_value_set_fields (mpr : wmManipulator F) (v : mat4 F) :
  let mpr' := target_property_value_set mpr v in
  dimensions mpr' = dimensions mpr /\ transform mpr' = transform mpr
  /\ highlight_part mpr' = highlight_part mpr
  /\ interaction_data mpr' = interaction_data mpr
  /\ matrix_offset mpr' = matrix_offset mpr
  /\ target_matrix mpr' = option_map (fun _ => v) (target_matrix mpr).
Proof.
  unfold target_property_value_set.
  destruct (target_matrix mpr) eqn:E; cbn; rewrite ?E; repeat split.
Qed.

Lemma modal_done_matrix_offset (mpr : wmManipulator F) :
  matrix_offset (out_mpr (modal_done mpr)) = matrix_offset mpr.
Proof. apply target_property_value_set_fields. Qed.

Lemma modal_done_target_matrix (mpr : wmManipulator F) :
  target_matrix (out_mpr (modal_done mpr))
  = option_map (fun _ => matrix_offset mpr) (target_matrix mpr).
Proof. apply target_property_value_set_fields. Qed.

Lemma modal_done_interaction_data (mpr : wmManipulator F) :
  interaction_data (out_mpr (modal_done mpr)) = interaction_data mpr.
Proof. apply target_property_value_set_fields. Qed.

(** ** Translate and rotate *)

(** C2.  While the translate area is dragged, an update whose projection
    succeeds stores the pre-drag matrix with [3][0] and [3][1] incremented
    by the pointer's move; the other fourteen components are those of the
    snapshot, and the same matrix is pushed to the bound property. *)
Theorem modal_translate_only_translation (C : bContext F)
    (mpr : wmManipulator F) (event : wmEvent)
    (data : RectTransformInteraction F) (point_local : arr2 F) :
  interaction_data mpr = Some data ->
  highlight_part mpr = ED_MANIPULATOR_CAGE2D_PART_TRANSLATE ->
  manipulator_window_project_2d C
    (set_matrix_offset mpr (orig_matrix_offset data)) (mval event) false
    = Some point_local ->
  let orig := orig_matrix_offset data in
  let delta := pointer_delta data point_local in
  exists o,
    manipulator_rect_transform_modal C mpr event = Done o
    /\ out_status o = OPERATOR_RUNNING_MODAL
    /\ mget (matrix_offset (out_mpr o)) I3 I0 = mget orig I3 I0 + get2 delta X
    /\ mget (matrix_offset (out_mpr o)) I3 I1 = mget orig I3 I1 + get2 delta Y
    /\ (forall i j : ix4,
          (i, j) <> (I3, I0) -> (i, j) <> (I3, I1) ->
          mget (matrix_offset (out_mpr o)) i j = mget orig i j)
    /\ target_matrix (out_mpr o)
       = option_map (fun _ => matrix_offset (out_mpr o)) (target_matrix mpr).
Proof.
  intros Hd Hpart Hp orig delta.
  rewrite (modal_projected C mpr event data point_local Hd Hp).
  destruct (target_property_value_get_fields mpr) as (_ & _ & Hh & _ & Ht & _).
  unfold modal_branch. rewrite Hh, Hpart, Z.eqb_refl. cbv zeta.
  eexists; split; [reflexivity |].
  rewrite modal_done_matrix_offset, modal_done_target_matrix.
  cbn [matrix_offset target_matrix set_matrix_offset]. rewrite Ht.
  split; [reflexivity |].
  split; [now rewrite !mget_mset |].
  split; [now rewrite !mget_mset |].
  split; [| reflexivity].
  intros i j N0 N1. rewrite !mget_mset.
  destruct i, j; cbn; try reflexivity; congruence.
Qed.

(** C8.  While the rotate handle is dragged, an update whose projection
    succeeds applies no rotation: the matrix it leaves is the value read
    from the bound property (the manipulator's own matrix when nothing is
    bound), which is the pre-drag matrix when the property holds it. *)
Theorem modal_rotate_inert (C : bContext F) (mpr : wmManipulator F)
    (event : wmEvent) (data : RectTransformInteraction F)
    (point_local : arr2 F) :
  interaction_data mpr = Some data ->
  highlight_part mpr = ED_MANIPULATOR_CAGE2D_PART_ROTATE ->
  manipulator_window_project_2d C
    (set_matrix_offset mpr (orig_matrix_offset data)) (mval event) false
    = Some point_local ->
  exists o,
    manipulator_rect_transform_modal C mpr event = Done o
    /\ out_status o = OPERATOR_RUNNING_MODAL
    /\ matrix_offset (out_mpr o)
       = match target_matrix mpr with
         | Some v => v
         | None => matrix_offset mpr
         end
    /\ target_matrix (out_mpr o) = target_matrix mpr
    /\ (target_matrix mpr = Some (orig_matrix_offset data) ->
        matrix_offset (out_mpr o) = orig_matrix_offset data).
Proof.
  intros Hd Hpart Hp.
  rewrite (modal_projected C mpr event data point_local Hd Hp).
  destruct (target_property_value_get_fields mpr)
    as (_ & _ & Hh & _ & Ht & Hm).
  unfold modal_branch. rewrite Hh, Hpart. cbn [Z.eqb].
  change (ED_MANIPULATOR_CAGE2D_PART_ROTATE
          =? ED_MANIPULATOR_CAGE2D_PART_TRANSLATE)%Z with false.
  rewrite Z.eqb_refl. cbv iota.
  eexists; split; [reflexivity |].
  rewrite modal_done_matrix_offset, modal_done_target_matrix, Hm, Ht.
  split; [reflexivity |]. split; [reflexivity |].
  destruct (target_matrix mpr) as [v|]; cbn.
  - split; [reflexivity | congruence].
  - split; [reflexivity | discriminate].
Qed.

(** ** Projection failures *)

(** C9.  A press whose projection fails still starts the session, with the
    local origin as the remembered pointer position and the running status;
    an update whose projection fails changes nothing, asks nothing of the
    host, and returns the running status. *)
Theorem projection_failure_recovered
    (C : bContext F) (mpr : wmManipulator F) (event : wmEvent)
    (C' : bContext F) (mpr' : wmManipulator F) (event' : wmEvent)
    (data : RectTransformInteraction F) :
  manipulator_window_project_2d C mpr (mval event) false = None ->
  interaction_data mpr' = Some data ->
  manipulator_window_project_2d C'
    (set_matrix_offset mpr' (orig_matrix_offset data)) (mval event') false
    = None ->
  (let o := manipulator_rect_transform_invoke C mpr event in
   out_status o = OPERATOR_RUNNING_MODAL
   /\ interaction_data (out_mpr o)
      = Some {| orig_mouse := (f0, f0);
                orig_matrix_offset := matrix_offset mpr |}
   /\ matrix_offset (out_mpr o) = matrix_offset mpr
   /\ target_matrix (out_mpr o) = target_matrix mpr)
  /\ manipulator_rect_transform_modal C' mpr' event'
     = Done {| out_mpr := mpr'; out_requests := [];
               out_status := OPERATOR_RUNNING_MODAL |}.
Proof.
  intros Hp Hd Hp'. split.
  - unfold manipulator_rect_transform_invoke. rewrite Hp. cbn.
    repeat split.
  - now apply modal_not_projected with (data := data).
Qed.

(** ** The hit test *)

(** No part code is the sentinel [-1]. *)
Lemma part_codes_not_sentinel (part : Z) :
  In part cage_parts -> part <> (-1)%Z.
Proof.
  intros [<-|[<-|I]]; try discriminate.
  apply scale_parts_range in I. lia.
Qed.

Lemma test_select_regions_miss (transform_flag : Z)
    (dims point_local : arr2 F) :
  geometric_miss transform_flag dims point_local ->
  test_select_regions transform_flag dims point_local = (-1)%Z.
Proof.
  intros (Ht & Hs & Hr). unfold test_select_regions. cbv zeta.
  assert (has_flag transform_flag ED_MANIPULATOR_CAGE2D_XFORM_FLAG_TRANSLATE
          && BLI_rctf_isect_pt_v
               (rect_translate (cage_size dims) (cage_margin dims))
               point_local = false) as ->
    by (destruct Ht as [-> | ->]; [reflexivity | apply andb_false_r]).
  assert ((if has_flag transform_flag
                (Z.lor ED_MANIPULATOR_CAGE2D_XFORM_FLAG_SCALE
                       ED_MANIPULATOR_CAGE2D_XFORM_FLAG_SCALE_UNIFORM)
           then test_select_scale (cage_size dims) (cage_margin dims)
                  point_local
           else None) = None) as ->
    by (destruct Hs as [-> | ->]; [reflexivity |];
        match goal with |- (if ?b then _ else _) = _ => now destruct b end).
  assert (has_flag transform_flag ED_MANIPULATOR_CAGE2D_XFORM_FLAG_ROTATE
          && BLI_rctf_isect_pt_v
               (rect_rotate (cage_size dims) (cage_margin dims))
               point_local = false) as ->
    by (destruct Hr as [-> | ->]; [reflexivity | apply andb_false_r]).
  reflexivity.
Qed.

(** C10.  When the projection of the pointer fails the hit test returns
    [-1] whatever the transform flags and the dimensions are, the value it
    also returns for a projected point that lies in no enabled region. *)
Theorem test_select_projection_failure_is_miss
    (C : bContext F) (mpr : wmManipulator F) (event : wmEvent)
    (C' : bContext F) (mpr' : wmManipulator F) (event' : wmEvent)
    (point_local : arr2 F) :
  manipulator_window_project_2d C mpr (mval event) true = None ->
  manipulator_window_project_2d C' mpr' (mval event') true = Some point_local ->
  geometric_miss (transform mpr') (dimensions mpr') point_local ->
  manipulator_rect_transform_test_select C mpr event = (-1)%Z
  /\ manipulator_rect_transform_test_select C' mpr' event'
     = manipulator_rect_transform_test_select C mpr event.
Proof.
  intros Hp Hp' Hmiss. unfold manipulator_rect_transform_test_select.
  rewrite Hp, Hp'. split; [reflexivity |].
  now apply test_select_regions_miss.
Qed.

(** The translate test comes first: a projected point inside the inner
    rectangle is the translate area whenever translation is enabled. *)
Lemma test_select_translate_first (C : bContext F) (mpr : wmManipulator F)
    (event : wmEvent) (point_local : arr2 F) :
  has_flag (transform mpr) ED_MANIPULATOR_CAGE2D_XFORM_FLAG_TRANSLATE = true ->
  manipulator_window_project_2d C mpr (mval event) true = Some point_local ->
  BLI_rctf_isect_pt_v
    (rect_translate (cage_size (dimensions mpr)) (cage_margin (dimensions mpr)))
    point_local = true ->
  manipulator_rect_transform_test_select C mpr event
  = ED_MANIPULATOR_CAGE2D_PART_TRANSLATE.
Proof.
  intros Hf Hp Hin. unfold manipulator_rect_transform_test_select.
  rewrite Hp. unfold test_select_regions. cbv zeta.
  now rewrite Hf, Hin.
Qed.

(** A point of a margin strip is given a scale part by the scale block. *)
Lemma test_select_scale_in_strip (size margin point_local : arr2 F) :
  BLI_rctf_isect_pt_v (rect_xmin size margin) point_local
  || BLI_rctf_isect_pt_v (rect_xmax size margin) point_local
  || BLI_rctf_isect_pt_v (rect_ymin size margin) point_local
  || BLI_rctf_isect_pt_v (rect_ymax size margin) point_local = true ->
  exists part,
    test_select_scale size margin point_local = Some part
    /\ In part scale_parts.
Proof.
  unfold test_select_scale. cbv zeta. unfold scale_parts.
  destruct (BLI_rctf_isect_pt_v (rect_xmin size margin) point_local);
  destruct (BLI_rctf_isect_pt_v (rect_xmax size margin) point_local);
  destruct (BLI_rctf_isect_pt_v (rect_ymin size margin) point_local);
  destruct (BLI_rctf_isect_pt_v (rect_ymax size margin) point_local);
  cbn; intros E; try discriminate E; eexists; (split; [reflexivity |]);
  cbn; tauto.
Qed.

(** C7.  With translation and scaling enabled, a projected point that lies
    in the inner rectangle and also in a margin strip is reported as the
    translate area, although the scale block alone would give it a scale
    part. *)
Theorem test_select_translate_wins (C : bContext F) (mpr : wmManipulator F)
    (event : wmEvent) (point_local : arr2 F) :
  let size := cage_size (dimensions mpr) in
  let margin := cage_margin (dimensions mpr) in
  has_flag (transform mpr) ED_MANIPULATOR_CAGE2D_XFORM_FLAG_TRANSLATE = true ->
  has_flag (transform mpr) ED_MANIPULATOR_CAGE2D_XFORM_FLAG_SCALE = true ->
  manipulator_window_project_2d C mpr (mval event) true = Some point_local ->
  BLI_rctf_isect_pt_v (rect_translate size margin) point_local = true ->
  BLI_rctf_isect_pt_v (rect_xmin size margin) point_local
  || BLI_rctf_isect_pt_v (rect_xmax size margin) point_local
  || BLI_rctf_isect_pt_v (rect_ymin size margin) point_local
  || BLI_rctf_isect_pt_v (rect_ymax size margin) point_local = true ->
  manipulator_rect_transform_test_select C mpr event
  = ED_MANIPULATOR_CAGE2D_PART_TRANSLATE
  /\ exists part,
       test_select_scale size margin point_local = Some part
       /\ In part scale_parts
       /\ part <> ED_MANIPULATOR_CAGE2D_PART_TRANSLATE.
Proof.
  intros size margin Hf _ Hp Hin Hstrip. split.
  - now apply test_select_translate_first with (point_local := point_local).
  - destruct (test_select_scale_in_strip size margin point_local Hstrip)
      as (part & E & I).
    exists part. repeat split; trivial.
    apply scale_parts_range in I.
    unfold ED_MANIPULATOR_CAGE2D_PART_TRANSLATE. lia.
Qed.

(** ** Scaling *)

(** The loop of the source computes the factors of the design. *)
Lemma scale_factors_spec (dims : arr2 F) (data : RectTransformInteraction F)
    (point_local pivot : arr2 F) (constrain_axis : arr2 bool) :
  scale_factors dims data point_local pivot constrain_axis
  = spec_scale_factors dims data point_local pivot constrain_axis.
Proof.
  unfold scale_factors, spec_scale_factors, spec_axis_scale, scale_axis,
    sub_v2_v2v2.
  destruct constrain_axis as [cx cy], pivot as [px py],
    point_local as [lx ly], dims as [w h].
  destruct data as [[ox oy] orig]. cbn.
  destruct cx, cy; cbn;
    destruct ((ox - px) / w <? f0); cbn;
    destruct ((oy - py) / h <? f0); reflexivity.
Qed.

(** The recentring of the math library is the sandwich of the design. *)
Lemma transform_pivot_set_m4_spec (scale pivot : arr2 F) :
  transform_pivot_set_m4 (scale_m4 scale) (get2 pivot X, get2 pivot Y, f0)
  = spec_recentered_scale scale pivot.
Proof. reflexivity. Qed.

Lemma scale_uniform_off (transform_flag : Z) (scale : arr2 F) :
  has_flag transform_flag ED_MANIPULATOR_CAGE2D_XFORM_FLAG_SCALE_UNIFORM = false ->
  scale_uniform transform_flag scale = scale.
Proof. intros E. unfold scale_uniform. now rewrite E. Qed.

(** With the uniform flag both factors are the one that deviates more from
    [1], the second on a tie. *)
Lemma scale_uniform_on (transform_flag : Z) (scale : arr2 F) :
  has_flag transform_flag ED_MANIPULATOR_CAGE2D_XFORM_FLAG_SCALE_UNIFORM = true ->
  let s :=
    if fabsf (get2 scale X - f1) >? fabsf (get2 scale Y - f1)
    then get2 scale X else get2 scale Y in
  scale_uniform transform_flag scale = (s, s).
Proof.
  intros E. unfold scale_uniform. rewrite E. destruct scale as [sx sy]. cbn.
  now destruct (fabsf (sx - f1) >? fabsf (sy - f1)).
Qed.

(** The pivot lookup of the scale branch returns on every scale part. *)
Lemma modal_pivot_done (transform_flag part : Z) :
  In part scale_parts ->
  exists pivot constrain_axis,
    @modal_pivot F _ transform_flag part = Done (pivot, constrain_axis).
Proof.
  intros I. unfold modal_pivot.
  destruct (has_flag transform_flag ED_MANIPULATOR_CAGE2D_XFORM_FLAG_TRANSLATE).
  - now apply pivot_from_scale_part_done.
  - now eexists; eexists.
Qed.

(** An update on a part that is neither the translate area nor the rotate
    handle, with its projection and its pivot lookup successful. *)
Lemma modal_scale_branch (C : bContext F) (mpr : wmManipulator F)
    (event : wmEvent) (data : RectTransformInteraction F)
    (point_local pivot : arr2 F) (constrain_axis : arr2 bool) :
  interaction_data mpr = Some data ->
  (highlight_part mpr =? ED_MANIPULATOR_CAGE2D_PART_TRANSLATE)%Z = false ->
  (highlight_part mpr =? ED_MANIPULATOR_CAGE2D_PART_ROTATE)%Z = false ->
  manipulator_window_project_2d C
    (set_matrix_offset mpr (orig_matrix_offset data)) (mval event) false
    = Some point_local ->
  modal_pivot (transform mpr) (highlight_part mpr)
    = Done (pivot, constrain_axis) ->
  exists o,
    manipulator_rect_transform_modal C mpr event = Done o
    /\ out_status o = OPERATOR_RUNNING_MODAL
    /\ matrix_offset (out_mpr o)
       = modal_scale (transform mpr) (dimensions mpr) data point_local pivot
           constrain_axis
    /\ target_matrix (out_mpr o)
       = option_map (fun _ => matrix_offset (out_mpr o)) (target_matrix mpr).
Proof.
  intros Hd Ht Hr Hp Hpivot.
  rewrite (modal_projected C mpr event data point_local Hd Hp).
  destruct (target_property_value_get_fields mpr)
    as (_ & _ & Hh & _ & Htm & _).
  unfold modal_branch. rewrite Hh, Ht, Hr. cbv zeta.
  cbn [highlight_part set_matrix_offset]. rewrite Hh, Hpivot.
  eexists; split; [reflexivity |].
  rewrite modal_done_matrix_offset, modal_done_target_matrix.
  cbn [matrix_offset target_matrix set_matrix_offset]. rewrite Htm.
  repeat split.
Qed.

(** C1 (amended).  While a scale part is dragged, an update whose
    projection succeeds computes the matrix from the pre-drag snapshot: the
    per-axis factors are those of the design, a constrained axis has factor
    [1], the factors go through the uniform block, and the matrix stored is
    the snapshot times the scale matrix recentred about the pivot.  When
    uniform scaling is not enabled the factors are used as they are. *)
Theorem modal_scale_from_snapshot (C : bContext F) (mpr : wmManipulator F)
    (event : wmEvent) (data : RectTransformInteraction F)
    (point_local : arr2 F) :
  interaction_data mpr = Some data ->
  In (highlight_part mpr) scale_parts ->
  manipulator_window_project_2d C
    (set_matrix_offset mpr (orig_matrix_offset data)) (mval event) false
    = Some point_local ->
  exists pivot constrain_axis o,
    modal_pivot (transform mpr) (highlight_part mpr)
      = Done (pivot, constrain_axis)
    /\ manipulator_rect_transform_modal C mpr event = Done o
    /\ let factors :=
         spec_scale_factors (dimensions mpr) data point_local pivot
           constrain_axis in
       matrix_offset (out_mpr o)
       = mul_m4_m4m4 (orig_matrix_offset data)
           (spec_recentered_scale (scale_uniform (transform mpr) factors) pivot)
       /\ (has_flag (transform mpr)
             ED_MANIPULATOR_CAGE2D_XFORM_FLAG_SCALE_UNIFORM = false ->
           matrix_offset (out_mpr o)
           = mul_m4_m4m4 (orig_matrix_offset data)
               (spec_recentered_scale factors pivot))
       /\ (forall i : ix2,
             get2 constrain_axis i = true -> get2 factors i = f1).
Proof.
  intros Hd Hpart Hp.
  destruct (modal_pivot_done (transform mpr) (highlight_part mpr) Hpart)
    as (pivot & constrain_axis & Hpivot).
  destruct (scale_part_not_translate_rotate _ Hpart) as [Ht Hr].
  destruct (modal_scale_branch C mpr event data point_local pivot
              constrain_axis Hd Ht Hr Hp Hpivot) as (o & Ho & _ & Hm & _).
  exists pivot, constrain_axis, o.
  split; [exact Hpivot |]. split; [exact Ho |]. cbv zeta.
  assert (matrix_offset (out_mpr o)
          = mul_m4_m4m4 (orig_matrix_offset data)
              (spec_recentered_scale
                 (scale_uniform (transform mpr)
                    (spec_scale_factors (dimensions mpr) data point_local
                       pivot constrain_axis)) pivot)) as E.
  { rewrite Hm. unfold modal_scale. cbv zeta.
    now rewrite scale_factors_spec, transform_pivot_set_m4_spec. }
  split; [exact E |]. split.
  - intros Hu. rewrite E. now rewrite scale_uniform_off.
  - intros i Hc. unfold spec_scale_factors, spec_axis_scale.
    destruct i; cbn [get2 fst snd] in *; now rewrite Hc.
Qed.

(** C5.  The scale branch takes its pivot and its constraint flags from the
    pivot table only when translation is enabled; when it is not, the pivot
    is the local origin and no axis is constrained, whatever the scale part
    is. *)
Theorem modal_pivot_needs_translate (C : bContext F) (mpr : wmManipulator F)
    (event : wmEvent) (data : RectTransformInteraction F)
    (point_local : arr2 F) :
  interaction_data mpr = Some data ->
  In (highlight_part mpr) scale_parts ->
  manipulator_window_project_2d C
    (set_matrix_offset mpr (orig_matrix_offset data)) (mval event) false
    = Some point_local ->
  exists pivot constrain_axis o,
    manipulator_rect_transform_modal C mpr event = Done o
    /\ matrix_offset (out_mpr o)
       = modal_scale (transform mpr) (dimensions mpr) data point_local pivot
           constrain_axis
    /\ (has_flag (transform mpr)
          ED_MANIPULATOR_CAGE2D_XFORM_FLAG_TRANSLATE = true ->
        manipulator_rect_pivot_from_scale_part (highlight_part mpr)
        = Done (pivot, constrain_axis))
    /\ (has_flag (transform mpr)
          ED_MANIPULATOR_CAGE2D_XFORM_FLAG_TRANSLATE = false ->
        pivot = (f0, f0) /\ constrain_axis = (false, false)).
Proof.
  intros Hd Hpart Hp.
  destruct (modal_pivot_done (transform mpr) (highlight_part mpr) Hpart)
    as (pivot & constrain_axis & Hpivot).
  destruct (scale_part_not_translate_rotate _ Hpart) as [Ht Hr].
  destruct (modal_scale_branch C mpr event data point_local pivot
              constrain_axis Hd Ht Hr Hp Hpivot) as (o & Ho & _ & Hm & _).
  exists pivot, constrain_axis, o.
  split; [exact Ho |]. split; [exact Hm |].
  unfold modal_pivot in Hpivot.
  destruct (has_flag (transform mpr) ED_MANIPULATOR_CAGE2D_XFORM_FLAG_TRANSLATE).
  - split; [intros _; exact Hpivot | discriminate].
  - split; [discriminate | intros _].
    unfold zero_v2 in Hpivot. now inversion Hpivot.
Qed.

(** With translation disabled, two manipulators that differ only in which
    part is active, neither the translate area nor the rotate handle, get
    the same matrix from the same update. *)
Lemma modal_scale_part_irrelevant (C : bContext F)
    (mpr mpr' : wmManipulator F) (event : wmEvent)
    (data : RectTransformInteraction F) (point_local : arr2 F) :
  has_flag (transform mpr) ED_MANIPULATOR_CAGE2D_XFORM_FLAG_TRANSLATE = false ->
  interaction_data mpr = Some data -> interaction_data mpr' = Some data ->
  transform mpr' = transform mpr -> dimensions mpr' = dimensions mpr ->
  (highlight_part mpr =? ED_MANIPULATOR_CAGE2D_PART_TRANSLATE)%Z = false ->
  (highlight_part mpr =? ED_MANIPULATOR_CAGE2D_PART_ROTATE)%Z = false ->
  (highlight_part mpr' =? ED_MANIPULATOR_CAGE2D_PART_TRANSLATE)%Z = false ->
  (highlight_part mpr' =? ED_MANIPULATOR_CAGE2D_PART_ROTATE)%Z = false ->
  manipulator_window_project_2d C
    (set_matrix_offset mpr (orig_matrix_offset data)) (mval event) false
    = Some point_local ->
  manipulator_window_project_2d C
    (set_matrix_offset mpr' (orig_matrix_offset data)) (mval event) false
    = Some point_local ->
  exists o o',
    manipulator_rect_transform_modal C mpr event = Done o
    /\ manipulator_rect_transform_modal C mpr' event = Done o'
    /\ matrix_offset (out_mpr o') = matrix_offset (out_mpr o).
Proof.
  intros Hf Hd Hd' Etf Edims Ht Hr Ht' Hr' Hp Hp'.
  assert (forall part, @modal_pivot F _ (transform mpr) part
                       = Done (zero_v2, (false, false))) as Hpivot
    by (intros part; unfold modal_pivot; now rewrite Hf).
  destruct (modal_scale_branch C mpr event data point_local _ _
              Hd Ht Hr Hp (Hpivot _)) as (o & Ho & _ & Hm & _).
  rewrite <- Etf in Hpivot.
  destruct (modal_scale_branch C mpr' event data point_local _ _
              Hd' Ht' Hr' Hp' (Hpivot _)) as (o' & Ho' & _ & Hm' & _).
  exists o, o'. repeat split; trivial.
  now rewrite Hm, Hm', Etf, Edims.
Qed.

(** C6.  With uniform scaling enabled the two factors of a scale update are
    made equal after the loop: both become the factor whose distance from
    [1] is larger, and the matrix stored is built from that pair. *)
Theorem modal_scale_uniform_equal (C : bContext F) (mpr : wmManipulator F)
    (event : wmEvent) (data : RectTransformInteraction F)
    (point_local : arr2 F) :
  interaction_data mpr = Some data ->
  In (highlight_part mpr) scale_parts ->
  manipulator_window_project_2d C
    (set_matrix_offset mpr (orig_matrix_offset data)) (mval event) false
    = Some point_local ->
  has_flag (transform mpr) ED_MANIPULATOR_CAGE2D_XFORM_FLAG_SCALE_UNIFORM = true ->
  exists pivot constrain_axis o s,
    modal_pivot (transform mpr) (highlight_part mpr)
      = Done (pivot, constrain_axis)
    /\ manipulator_rect_transform_modal C mpr event = Done o
    /\ let factors :=
         scale_factors (dimensions mpr) data point_local pivot
           constrain_axis in
       scale_uniform (transform mpr) factors = (s, s)
       /\ s = (if fabsf (get2 factors X - f1) >? fabsf (get2 factors Y - f1)
               then get2 factors X else get2 factors Y)
       /\ matrix_offset (out_mpr o)
          = mul_m4_m4m4 (orig_matrix_offset data)
              (transform_pivot_set_m4 (scale_m4 (s, s))
                 (get2 pivot X, get2 pivot Y, f0))
       /\ mget (scale_m4 (s, s)) I0 I0 = f1 * s
       /\ mget (scale_m4 (s, s)) I1 I1 = f1 * s.
Proof.
  intros Hd Hpart Hp Hu.
  destruct (modal_pivot_done (transform mpr) (highlight_part mpr) Hpart)
    as (pivot & constrain_axis & Hpivot).
  destruct (scale_part_not_translate_rotate _ Hpart) as [Ht Hr].
  destruct (modal_scale_branch C mpr event data point_local pivot
              constrain_axis Hd Ht Hr Hp Hpivot) as (o & Ho & _ & Hm & _).
  exists pivot, constrain_axis, o. eexists.
  split; [exact Hpivot |]. split; [exact Ho |]. cbv zeta.
  pose proof (scale_uniform_on (transform mpr)
    (scale_factors (dimensions mpr) data point_local pivot constrain_axis) Hu)
    as E. cbv zeta in E.
  split; [exact E |]. split; [reflexivity |].
  split; [| split; reflexivity].
  rewrite Hm. unfold modal_scale. cbv zeta. now rewrite E.
Qed.

(** ** Drag sessions *)

(** The branch on the active part writes the matrix only. *)
Lemma modal_branch_fields (mpr mpr' : wmManipulator F) (transform_flag : Z)
    (dims : arr2 F) (data : RectTransformInteraction F)
    (point_local value_xy : arr2 F) :
  modal_branch mpr transform_flag dims data point_local value_xy = Done mpr' ->
  interaction_data mpr' = interaction_data mpr
  /\ highlight_part mpr' = highlight_part mpr
  /\ target_matrix mpr' = target_matrix mpr.
Proof.
  unfold modal_branch. cbv zeta.
  destruct (highlight_part mpr =? ED_MANIPULATOR_CAGE2D_PART_TRANSLATE)%Z.
  - intros [= <-]. repeat split.
  - destruct (highlight_part mpr =? ED_MANIPULATOR_CAGE2D_PART_ROTATE)%Z.
    + intros [= <-]. repeat split.
    + destruct (modal_pivot transform_flag _) as [[pivot ca]|f];
        [| discriminate].
      intros [= <-]. repeat split.
Qed.

(** On each of the ten parts the branch returns. *)
Lemma modal_branch_done (mpr : wmManipulator F) (transform_flag : Z)
    (dims : arr2 F) (data : RectTransformInteraction F)
    (point_local value_xy : arr2 F) :
  In (highlight_part mpr) cage_parts ->
  exists mpr',
    modal_branch mpr transform_flag dims data point_local value_xy = Done mpr'.
Proof.
  intros I. unfold modal_branch. cbv zeta.
  destruct (Z.eqb_spec (highlight_part mpr)
              ED_MANIPULATOR_CAGE2D_PART_TRANSLATE) as [_|Nt];
    [eexists; reflexivity |].
  destruct (Z.eqb_spec (highlight_part mpr)
              ED_MANIPULATOR_CAGE2D_PART_ROTATE) as [_|Nr];
    [eexists; reflexivity |].
  destruct I as [E|[E|I]]; [congruence | congruence |].
  cbn [highlight_part set_matrix_offset].
  destruct (modal_pivot_done transform_flag (highlight_part mpr) I)
    as (pivot & ca & ->).
  eexists; reflexivity.
Qed.

(** What an update keeps: the session data, the active part, and whether a
    property is bound. *)
Lemma modal_keeps_session (C : bContext F) (mpr : wmManipulator F)
    (event : wmEvent) (o : outcome F) :
  manipulator_rect_transform_modal C mpr event = Done o ->
  interaction_data (out_mpr o) = interaction_data mpr
  /\ highlight_part (out_mpr o) = highlight_part mpr
  /\ (target_matrix (out_mpr o) = None <-> target_matrix mpr = None).
Proof.
  intros Ho.
  destruct (interaction_data mpr) as [data|] eqn:Hd;
    [| unfold manipulator_rect_transform_modal in Ho; rewrite Hd in Ho;
       discriminate].
  destruct (manipulator_window_project_2d C
              (set_matrix_offset mpr (orig_matrix_offset data)) (mval event)
              false) as [point_local|] eqn:Hp.
  - rewrite (modal_projected C mpr event data point_local Hd Hp) in Ho.
    destruct (modal_branch _ _ _ _ _ _) as [mpr'|f] eqn:Hb; [| discriminate].
    injection Ho as <-.
    apply modal_branch_fields in Hb. destruct Hb as (Hi & Hh & Ht).
    destruct (target_property_value_get_fields mpr)
      as (_ & _ & Hh' & Hi' & Ht' & _).
    destruct (target_property_value_set_fields mpr' (matrix_offset mpr'))
      as (_ & _ & Hh'' & _).
    rewrite modal_done_interaction_data, modal_done_target_matrix.
    unfold modal_done; cbn [out_mpr]. rewrite Hh'', Hh, Hh'.
    rewrite Hi, Hi', Ht, Ht', Hd. split; [reflexivity |].
    split; [reflexivity |].
    destruct (target_matrix mpr); cbn; split; congruence.
  - rewrite (modal_not_projected C mpr event data Hd Hp) in Ho.
    injection Ho as <-. cbn. rewrite Hd. repeat split; trivial.
Qed.

(** An update of a running session on one of the ten parts returns. *)
Lemma modal_returns (C : bContext F) (mpr : wmManipulator F) (event : wmEvent)
    (data : RectTransformInteraction F) :
  interaction_data mpr = Some data ->
  In (highlight_part mpr) cage_parts ->
  exists o, manipulator_rect_transform_modal C mpr event = Done o.
Proof.
  intros Hd I.
  destruct (manipulator_window_project_2d C
              (set_matrix_offset mpr (orig_matrix_offset data)) (mval event)
              false) as [point_local|] eqn:Hp.
  - rewrite (modal_projected C mpr event data point_local Hd Hp).
    destruct (target_property_value_get_fields mpr) as (_ & _ & Hh & _).
    rewrite <- Hh in I.
    destruct (modal_branch_done (target_property_value_get mpr)
                (transform mpr) (dimensions mpr) data point_local
                (pointer_delta data point_local) I) as (mpr' & ->).
    eexists; reflexivity.
  - rewrite (modal_not_projected C mpr event data Hd Hp).
    eexists; reflexivity.
Qed.

(** Any list of moves goes through, and keeps what one update keeps. *)
Lemma run_modal_returns (moves : list (bContext F * wmEvent))
    (mpr : wmManipulator F) (data : RectTransformInteraction F) :
  interaction_data mpr = Some data ->
  In (highlight_part mpr) cage_parts ->
  exists mprN,
    run_modal mpr moves = Done mprN
    /\ interaction_data mprN = Some data
    /\ (target_matrix mprN = None <-> target_matrix mpr = None).
Proof.
  revert mpr. induction moves as [| [C event] moves IH]; intros mpr Hd I; cbn.
  - exists mpr. repeat split; trivial.
  - destruct (modal_returns C mpr event data Hd I) as (o & Ho).
    rewrite Ho. destruct (modal_keeps_session C mpr event o Ho)
      as (Hi & Hh & Ht).
    rewrite <- Hi in Hd. rewrite <- Hh in I.
    destruct (IH (out_mpr o) Hd I) as (mprN & Hrun & HdN & HtN).
    exists mprN. split; [exact Hrun |]. split; [exact HdN |].
    now rewrite HtN.
Qed.

(** C3.  A drag on any of the ten parts goes through any list of updates;
    cancelling it then puts the matrix saved at the press back and pushes
    that matrix to the bound property, while releasing it leaves the
    manipulator as the last update left it. *)
Theorem drag_session_cancel_restores (C : bContext F) (mpr : wmManipulator F)
    (press : wmEvent) (moves : list (bContext F * wmEvent)) :
  In (highlight_part mpr) cage_parts ->
  exists mprN,
    run_modal (out_mpr (manipulator_rect_transform_invoke C mpr press)) moves
      = Done mprN
    /\ drag_session C mpr press moves false = Done mprN
    /\ exists r,
         drag_session C mpr press moves true = Done r
         /\ matrix_offset r = matrix_offset mpr
         /\ target_matrix r
            = option_map (fun _ => matrix_offset mpr) (target_matrix mpr).
Proof.
  intros I.
  destruct (run_modal_returns moves
              (out_mpr (manipulator_rect_transform_invoke C mpr press))
              {| orig_mouse :=
                   match
                     manipulator_window_project_2d C mpr (mval press) false
                   with
                   | Some p => p
                   | None => zero_v2
                   end;
                 orig_matrix_offset := matrix_offset mpr |}
              eq_refl I) as (mprN & Hrun & Hi & Hb).
  exists mprN. split; [exact Hrun |].
  unfold drag_session. rewrite Hrun. split; [reflexivity |].
  cbn [manipulator_rect_transform_invoke out_mpr set_interaction_data
       target_matrix] in Hb.
  unfold manipulator_rect_transform_exit. cbn [negb]. rewrite Hi.
  cbn [orig_matrix_offset].
  eexists; split; [reflexivity |].
  destruct (target_property_value_set_fields mprN (matrix_offset mpr))
    as (_ & _ & _ & _ & _ & Ht).
  cbn [matrix_offset target_matrix set_matrix_offset]. rewrite Ht.
  split; [reflexivity |].
  destruct (target_matrix mprN), (target_matrix mpr); cbn;
    try reflexivity; destruct Hb; intuition discriminate.
Qed.

End Properties.

(* ------------------------------------------------------------------ *)
(** * The properties on sample sessions *)

Module SampleProperties.
Import Sample.
Local Open Scope fl_scope.

(** The translate drag moved by (+5, -3): the translation grows by
    [(5, -3)] and nothing else changes. *)
Lemma modal_translate_only_translation_witness :
  exists o,
    manipulator_rect_transform_modal (pixel_context 1) translate_drag
      (pointer_at 5 (-3)) = Done o
    /\ out_status o = OPERATOR_RUNNING_MODAL
    /\ mget (matrix_offset (out_mpr o)) I3 I0
       = mget (orig_matrix_offset (press_data 1 0 0)) I3 I0
         + get2 (pointer_delta (press_data 1 0 0)
                   (f_of_Z 5 / f_of_Z 1, f_of_Z (-3) / f_of_Z 1)) X
    /\ mget (matrix_offset (out_mpr o)) I3 I1
       = mget (orig_matrix_offset (press_data 1 0 0)) I3 I1
         + get2 (pointer_delta (press_data 1 0 0)
                   (f_of_Z 5 / f_of_Z 1, f_of_Z (-3) / f_of_Z 1)) Y
    /\ (forall i j : ix4,
          (i, j) <> (I3, I0) -> (i, j) <> (I3, I1) ->
          mget (matrix_offset (out_mpr o)) i j
          = mget (orig_matrix_offset (press_data 1 0 0)) i j)
    /\ target_matrix (out_mpr o)
       = option_map (fun _ => matrix_offset (out_mpr o))
           (target_matrix translate_drag).
Proof.
  apply (modal_translate_only_translation (pixel_context 1) translate_drag
           (pointer_at 5 (-3)) (press_data 1 0 0)
           (f_of_Z 5 / f_of_Z 1, f_of_Z (-3) / f_of_Z 1));
    vm_compute; reflexivity.
Defined.

(** The rotate drag moved: the matrix stays the one the property holds. *)
Lemma modal_rotate_inert_witness :
  exists o,
    manipulator_rect_transform_modal (pixel_context 1) rotate_drag
      (pointer_at 30 90) = Done o
    /\ out_status o = OPERATOR_RUNNING_MODAL
    /\ matrix_offset (out_mpr o)
       = match target_matrix rotate_drag with
         | Some v => v
         | None => matrix_offset rotate_drag
         end
    /\ target_matrix (out_mpr o) = target_matrix rotate_drag
    /\ (target_matrix rotate_drag
        = Some (orig_matrix_offset (press_data 1 0 110)) ->
        matrix_offset (out_mpr o) = orig_matrix_offset (press_data 1 0 110)).
Proof.
  apply (modal_rotate_inert (pixel_context 1) rotate_drag (pointer_at 30 90)
           (press_data 1 0 110) (f_of_Z 30 / f_of_Z 1, f_of_Z 90 / f_of_Z 1));
    vm_compute; reflexivity.
Defined.

(** A press and a move in a view that cannot project. *)
Lemma projection_failure_recovered_witness :
  (let o :=
     manipulator_rect_transform_invoke blind_context
       (cage 200 200 all_transforms ED_MANIPULATOR_CAGE2D_PART_TRANSLATE)
       (pointer_at 3 4) in
   out_status o = OPERATOR_RUNNING_MODAL
   /\ interaction_data (out_mpr o)
      = Some {| orig_mouse := (f0, f0);
                orig_matrix_offset :=
                  matrix_offset
                    (cage 200 200 all_transforms
                       ED_MANIPULATOR_CAGE2D_PART_TRANSLATE) |}
   /\ matrix_offset (out_mpr o)
      = matrix_offset
          (cage 200 200 all_transforms ED_MANIPULATOR_CAGE2D_PART_TRANSLATE)
   /\ target_matrix (out_mpr o)
      = target_matrix
          (cage 200 200 all_transforms ED_MANIPULATOR_CAGE2D_PART_TRANSLATE))
  /\ manipulator_rect_transform_modal blind_context translate_drag
       (pointer_at 9 9)
     = Done {| out_mpr := translate_drag; out_requests := [];
               out_status := OPERATOR_RUNNING_MODAL |}.
Proof.
  apply (projection_failure_recovered blind_context
           (cage 200 200 all_transforms ED_MANIPULATOR_CAGE2D_PART_TRANSLATE)
           (pointer_at 3 4) blind_context translate_drag (pointer_at 9 9)
           (press_data 1 0 0));
    vm_compute; reflexivity.
Defined.

(** A pointer that cannot be projected and a pointer far outside the cage
    get the same answer from the hit test. *)
Lemma test_select_projection_failure_is_miss_witness :
  manipulator_rect_transform_test_select blind_context
    (cage 200 200 all_transforms (-1)) (pointer_at 0 0) = (-1)%Z
  /\ manipulator_rect_transform_test_select (pixel_context 1)
       (cage 200 200 all_transforms (-1)) (pointer_at 1000 1000)
     = manipulator_rect_transform_test_select blind_context
         (cage 200 200 all_transforms (-1)) (pointer_at 0 0).
Proof.
  apply (test_select_projection_failure_is_miss blind_context
           (cage 200 200 all_transforms (-1)) (pointer_at 0 0)
           (pixel_context 1) (cage 200 200 all_transforms (-1))
           (pointer_at 1000 1000)
           (f_of_Z 1000 / f_of_Z 1, f_of_Z 1000 / f_of_Z 1)).
  - vm_compute; reflexivity.
  - vm_compute; reflexivity.
  - repeat split; right; vm_compute; reflexivity.
Defined.

(** The pixel (-90, 0) of a 200 x 200 cage lies on the common border of the
    inner rectangle and the left margin strip. *)
Lemma test_select_translate_wins_witness :
  manipulator_rect_transform_test_select (pixel_context 1)
    (cage 200 200 translate_and_scale (-1)) (pointer_at (-90) 0)
  = ED_MANIPULATOR_CAGE2D_PART_TRANSLATE
  /\ exists part,
       test_select_scale
         (cage_size (dimensions (cage 200 200 translate_and_scale (-1))))
         (cage_margin (dimensions (cage 200 200 translate_and_scale (-1))))
         (f_of_Z (-90) / f_of_Z 1, f_of_Z 0 / f_of_Z 1) = Some part
       /\ In part scale_parts
       /\ part <> ED_MANIPULATOR_CAGE2D_PART_TRANSLATE.
Proof.
  apply (test_select_translate_wins (pixel_context 1)
           (cage 200 200 translate_and_scale (-1)) (pointer_at (-90) 0)
           (f_of_Z (-90) / f_of_Z 1, f_of_Z 0 / f_of_Z 1));
    vm_compute; reflexivity.
Defined.

(** The right edge of the unit cage dragged from local [(0.5, 0)] to
    [(1, 0)], translation and scaling enabled. *)
Lemma modal_scale_from_snapshot_witness :
  exists pivot constrain_axis o,
    modal_pivot (transform (scale_drag translate_and_scale))
      (highlight_part (scale_drag translate_and_scale))
      = Done (pivot, constrain_axis)
    /\ manipulator_rect_transform_modal (pixel_context 4)
         (scale_drag translate_and_scale) (pointer_at 4 0) = Done o
    /\ let factors :=
         spec_scale_factors (dimensions (scale_drag translate_and_scale))
           (press_data 4 2 0) (f_of_Z 4 / f_of_Z 4, f_of_Z 0 / f_of_Z 4)
           pivot constrain_axis in
       matrix_offset (out_mpr o)
       = mul_m4_m4m4 (orig_matrix_offset (press_data 4 2 0))
           (spec_recentered_scale
              (scale_uniform (transform (scale_drag translate_and_scale))
                 factors) pivot)
       /\ (has_flag (transform (scale_drag translate_and_scale))
             ED_MANIPULATOR_CAGE2D_XFORM_FLAG_SCALE_UNIFORM = false ->
           matrix_offset (out_mpr o)
           = mul_m4_m4m4 (orig_matrix_offset (press_data 4 2 0))
               (spec_recentered_scale factors pivot))
       /\ (forall i : ix2,
             get2 constrain_axis i = true -> get2 factors i = f1).
Proof.
  apply (modal_scale_from_snapshot (pixel_context 4)
           (scale_drag translate_and_scale) (pointer_at 4 0)
           (press_data 4 2 0) (f_of_Z 4 / f_of_Z 4, f_of_Z 0 / f_of_Z 4)).
  - vm_compute; reflexivity.
  - right; left; reflexivity.
  - vm_compute; reflexivity.
Defined.

(** The same drag with scaling alone enabled: the pivot is the origin. *)
Lemma modal_pivot_needs_translate_witness :
  exists pivot constrain_axis o,
    manipulator_rect_transform_modal (pixel_context 4)
      (scale_drag ED_MANIPULATOR_CAGE2D_XFORM_FLAG_SCALE) (pointer_at 4 0)
      = Done o
    /\ matrix_offset (out_mpr o)
       = modal_scale
           (transform (scale_drag ED_MANIPULATOR_CAGE2D_XFORM_FLAG_SCALE))
           (dimensions (scale_drag ED_MANIPULATOR_CAGE2D_XFORM_FLAG_SCALE))
           (press_data 4 2 0) (f_of_Z 4 / f_of_Z 4, f_of_Z 0 / f_of_Z 4)
           pivot constrain_axis
    /\ (has_flag (transform (scale_drag ED_MANIPULATOR_CAGE2D_XFORM_FLAG_SCALE))
          ED_MANIPULATOR_CAGE2D_XFORM_FLAG_TRANSLATE = true ->
        manipulator_rect_pivot_from_scale_part
          (highlight_part (scale_drag ED_MANIPULATOR_CAGE2D_XFORM_FLAG_SCALE))
        = Done (pivot, constrain_axis))
    /\ (has_flag (transform (scale_drag ED_MANIPULATOR_CAGE2D_XFORM_FLAG_SCALE))
          ED_MANIPULATOR_CAGE2D_XFORM_FLAG_TRANSLATE = false ->
        pivot = (f0, f0) /\ constrain_axis = (false, false)).
Proof.
  apply (modal_pivot_needs_translate (pixel_context 4)
           (scale_drag ED_MANIPULATOR_CAGE2D_XFORM_FLAG_SCALE) (pointer_at 4 0)
           (press_data 4 2 0) (f_of_Z 4 / f_of_Z 4, f_of_Z 0 / f_of_Z 4)).
  - vm_compute; reflexivity.
  - right; left; reflexivity.
  - vm_compute; reflexivity.
Defined.

(** The same drag with uniform scaling enabled as well. *)
Lemma modal_scale_uniform_equal_witness :
  exists pivot constrain_axis o s,
    modal_pivot (transform (scale_drag translate_and_uniform_scale))
      (highlight_part (scale_drag translate_and_uniform_scale))
      = Done (pivot, constrain_axis)
    /\ manipulator_rect_transform_modal (pixel_context 4)
         (scale_drag translate_and_uniform_scale) (pointer_at 4 0) = Done o
    /\ let factors :=
         scale_factors (dimensions (scale_drag translate_and_uniform_scale))
           (press_data 4 2 0) (f_of_Z 4 / f_of_Z 4, f_of_Z 0 / f_of_Z 4)
           pivot constrain_axis in
       scale_uniform (transform (scale_drag translate_and_uniform_scale))
         factors = (s, s)
       /\ s = (if fabsf (get2 factors X - f1) >? fabsf (get2 factors Y - f1)
               then get2 factors X else get2 factors Y)
       /\ matrix_offset (out_mpr o)
          = mul_m4_m4m4 (orig_matrix_offset (press_data 4 2 0))
              (transform_pivot_set_m4 (scale_m4 (s, s))
                 (get2 pivot X, get2 pivot Y, f0))
       /\ mget (scale_m4 (s, s)) I0 I0 = f1 * s
       /\ mget (scale_m4 (s, s)) I1 I1 = f1 * s.
Proof.
  apply (modal_scale_uniform_equal (pixel_context 4)
           (scale_drag translate_and_uniform_scale) (pointer_at 4 0)
           (press_data 4 2 0) (f_of_Z 4 / f_of_Z 4, f_of_Z 0 / f_of_Z 4)).
  - vm_compute; reflexivity.
  - right; left; reflexivity.
  - vm_compute; reflexivity.
  - vm_compute; reflexivity.
Defined.

(** The translate drag of three moves, released and cancelled. *)
Lemma drag_session_cancel_restores_witness :
  exists mprN,
    run_modal
      (out_mpr
         (manipulator_rect_transform_invoke (pixel_context 1)
            (cage 200 200 all_transforms ED_MANIPULATOR_CAGE2D_PART_TRANSLATE)
            (pointer_at 0 0))) translate_moves = Done mprN
    /\ drag_session (pixel_context 1)
         (cage 200 200 all_transforms ED_MANIPULATOR_CAGE2D_PART_TRANSLATE)
         (pointer_at 0 0) translate_moves false = Done mprN
    /\ exists r,
         drag_session (pixel_context 1)
           (cage 200 200 all_transforms ED_MANIPULATOR_CAGE2D_PART_TRANSLATE)
           (pointer_at 0 0) translate_moves true = Done r
         /\ matrix_offset r
            = matrix_offset
                (cage 200 200 all_transforms
                   ED_MANIPULATOR_CAGE2D_PART_TRANSLATE)
         /\ target_matrix r
            = option_map
                (fun _ =>
                   matrix_offset
                     (cage 200 200 all_transforms
                        ED_MANIPULATOR_CAGE2D_PART_TRANSLATE))
                (target_matrix
                   (cage 200 200 all_transforms
                      ED_MANIPULATOR_CAGE2D_PART_TRANSLATE)).
Proof.
  apply (drag_session_cancel_restores (pixel_context 1)
           (cage 200 200 all_transforms ED_MANIPULATOR_CAGE2D_PART_TRANSLATE)
           (pointer_at 0 0) translate_moves).
  left; reflexivity.
Defined.

(** The matrix the three moves leave is not the one of the press: the
    release keeps a translation by [(7, 2)]. *)
Example translate_moved_matrix :
  run_modal translate_drag translate_moves = Done translate_moved
  /\ mget (matrix_offset translate_moved) I3 I0 = f_of_Z 7
  /\ mget (matrix_offset translate_moved) I3 I1 = f_of_Z 2
  /\ target_matrix translate_moved = Some (matrix_offset translate_moved).
Proof. vm_compute. repeat split. Qed.

(** ** Uniform scaling and the constrained axis *)

(** With translation, scaling and uniform scaling enabled, the drag of the
    right edge from local [(0.5, 0)] to [(1, 0)] has the factors
    [(1.5, 1)]: the second axis is constrained.  The matrix stored is
    nevertheless built from [(1.5, 1.5)] and is not the snapshot times the
    recentred scale matrix of the per-axis factors. *)
Lemma modal_scale_uniform_overrides_constraint :
  In (highlight_part (scale_drag translate_and_uniform_scale)) scale_parts
  /\ modal_pivot (transform (scale_drag translate_and_uniform_scale))
       (highlight_part (scale_drag translate_and_uniform_scale))
     = Done ((- f_half, f0), (false, true))
  /\ spec_scale_factors (dimensions (scale_drag translate_and_uniform_scale))
       (press_data 4 2 0) (f_of_Z 4 / f_of_Z 4, f_of_Z 0 / f_of_Z 4)
       (- f_half, f0) (false, true)
     = (f_of_Z 3 / f_of_Z 2, f1)
  /\ exists o,
       manipulator_rect_transform_modal (pixel_context 4)
         (scale_drag translate_and_uniform_scale) (pointer_at 4 0) = Done o
       /\ mget (matrix_offset (out_mpr o)) I1 I1 = f_of_Z 3 / f_of_Z 2
       /\ mget
            (mul_m4_m4m4 (orig_matrix_offset (press_data 4 2 0))
               (spec_recentered_scale (f_of_Z 3 / f_of_Z 2, f1)
                  (- f_half, f0))) I1 I1 = f1
       /\ matrix_offset (out_mpr o)
          <> mul_m4_m4m4 (orig_matrix_offset (press_data 4 2 0))
               (spec_recentered_scale
                  (spec_scale_factors
                     (dimensions (scale_drag translate_and_uniform_scale))
                     (press_data 4 2 0)
                     (f_of_Z 4 / f_of_Z 4, f_of_Z 0 / f_of_Z 4)
                     (- f_half, f0) (false, true))
                  (- f_half, f0)).
Proof.
  split; [right; left; reflexivity |].
  split; [vm_compute; reflexivity |].
  split; [vm_compute; reflexivity |].
  eexists. split; [vm_compute; reflexivity |].
  split; [vm_compute; reflexivity |].
  split; [vm_compute; reflexivity |].
  intros E.
  apply (f_equal (fun m : mat4 Binary32.t => mget m I1 I1)) in E.
  vm_compute in E. discriminate E.
Qed.

(** ** Scenarios of the design *)

(** A 2 x 2 cage with scaling enabled, the pointer at local [(0.9, 0.9)]:
    the hit test answers the corner of the two maxima. *)
Example scenario_hit_corner :
  manipulator_rect_transform_test_select (pixel_context 10)
    (cage 2 2 ED_MANIPULATOR_CAGE2D_XFORM_FLAG_SCALE (-1)) (pointer_at 9 9)
  = ED_MANIPULATOR_CAGE2D_PART_SCALE_MAX_X_MAX_Y.
Proof. vm_compute; reflexivity. Qed.

(** Dragging that corner on to local [(1, 1)] scales both axes by the same
    factor. *)
Example scenario_drag_corner :
  match
    manipulator_rect_transform_modal (pixel_context 10)
      (pressed (pixel_context 10)
         (cage 2 2 ED_MANIPULATOR_CAGE2D_XFORM_FLAG_SCALE
            ED_MANIPULATOR_CAGE2D_PART_SCALE_MAX_X_MAX_Y) (pointer_at 9 9))
      (pointer_at 10 10)
  with
  | Done o =>
      mget (matrix_offset (out_mpr o)) I0 I0
      = mget (matrix_offset (out_mpr o)) I1 I1
      /\ SFltb f1 (mget (matrix_offset (out_mpr o)) I0 I0) = true
  | Abort _ => False
  end.
Proof. vm_compute. split; reflexivity. Qed.

End SampleProperties.

(* ------------------------------------------------------------------ *)
(** * Further properties *)

Section HitTestProperties.
Context {F : Type} `{FloatOps F}.
Local Open Scope fl_scope.

(** A flag test against two flags at once succeeds when one of them is
    set. *)
Lemma has_flag_lor (transform_flag a b : Z) :
  has_flag transform_flag (Z.lor a b)
  = has_flag transform_flag a || has_flag transform_flag b.
Proof.
  unfold has_flag. rewrite Z.land_lor_distr_r.
  destruct (Z.eqb_spec (Z.lor (Z.land transform_flag a)
                          (Z.land transform_flag b)) 0) as [E|N].
  - apply Z.lor_eq_0_iff in E. destruct E as [Ea Eb].
    now rewrite Ea, Eb.
  - destruct (Z.eqb_spec (Z.land transform_flag a) 0) as [Ea|Na];
    destruct (Z.eqb_spec (Z.land transform_flag b) 0) as [Eb|Nb];
      cbn; try reflexivity.
    exfalso. apply N. now rewrite Ea, Eb.
Qed.

(** A point of two rectangles lies in the crossing of the x range of the
    first with the y range of the second. *)
Lemma isect_rect_cross (rx ry : @rctf F) (p : arr2 F) :
  BLI_rctf_isect_pt_v rx p = true ->
  BLI_rctf_isect_pt_v ry p = true ->
  BLI_rctf_isect_pt_v (rect_cross rx ry) p = true.
Proof.
  unfold BLI_rctf_isect_pt_v, rect_cross. cbn.
  repeat match goal with
  | |- context [if ?c then _ else _] => destruct c
  end; intros; try discriminate; reflexivity.
Qed.

(** The scale block answers a scale part whose region holds the point. *)
Lemma test_select_scale_region (size margin p : arr2 F) (part : Z) :
  test_select_scale size margin p = Some part ->
  In part scale_parts
  /\ exists region,
       hit_region part size margin = Some region
       /\ BLI_rctf_isect_pt_v region p = true.
Proof.
  unfold test_select_scale. cbv zeta.
  destruct (BLI_rctf_isect_pt_v (rect_xmin size margin) p) eqn:Exmin;
  [| destruct (BLI_rctf_isect_pt_v (rect_xmax size margin) p) eqn:Exmax];
  destruct (BLI_rctf_isect_pt_v (rect_ymin size margin) p) eqn:Eymin;
  try destruct (BLI_rctf_isect_pt_v (rect_ymax size margin) p) eqn:Eymax;
  intros [= <-];
  (split; [cbv [scale_parts In]; tauto |]);
  eexists; (split; [reflexivity |]);
  auto using isect_rect_cross.
Qed.

(** X1.  The hit test answers [-1] or a part whose transform is enabled
    and whose region holds the projected point: the translate area only
    with the translate flag and inside the inner rectangle, a scale part
    only with one of the two scale flags and inside its strip or crossing
    of strips, the rotate handle only with the rotate flag and inside the
    hot spot. *)
Theorem test_select_respects_flags (C : bContext F) (mpr : wmManipulator F)
    (event : wmEvent) :
  let part := manipulator_rect_transform_test_select C mpr event in
  let size := cage_size (dimensions mpr) in
  let margin := cage_margin (dimensions mpr) in
  part = (-1)%Z
  \/ exists p,
       manipulator_window_project_2d C mpr (mval event) true = Some p
       /\ ((part = ED_MANIPULATOR_CAGE2D_PART_TRANSLATE
            /\ has_flag (transform mpr)
                 ED_MANIPULATOR_CAGE2D_XFORM_FLAG_TRANSLATE = true
            /\ BLI_rctf_isect_pt_v (rect_translate size margin) p = true)
           \/ (In part scale_parts
               /\ scale_hit_enabled (transform mpr) = true
               /\ exists region,
                    hit_region part size margin = Some region
                    /\ BLI_rctf_isect_pt_v region p = true)
           \/ (part = ED_MANIPULATOR_CAGE2D_PART_ROTATE
               /\ has_flag (transform mpr)
                    ED_MANIPULATOR_CAGE2D_XFORM_FLAG_ROTATE = true
               /\ BLI_rctf_isect_pt_v (rect_rotate size margin) p = true)).
Proof.
  cbv zeta. unfold manipulator_rect_transform_test_select.
  destruct (manipulator_window_project_2d C mpr (mval event) true)
    as [p|]; [| now left].
  unfold test_select_regions. cbv zeta.
  destruct (has_flag (transform mpr)
              ED_MANIPULATOR_CAGE2D_XFORM_FLAG_TRANSLATE) eqn:Ht;
  [destruct (BLI_rctf_isect_pt_v
               (rect_translate (cage_size (dimensions mpr))
                  (cage_margin (dimensions mpr))) p) eqn:Hin |];
  cbn [andb].
  1: { right. exists p. split; [reflexivity |]. left. auto. }
  all: fold (scale_hit_enabled (transform mpr));
    destruct (scale_hit_enabled (transform mpr)) eqn:Hs;
    [destruct (test_select_scale (cage_size (dimensions mpr))
                 (cage_margin (dimensions mpr)) p) as [part|] eqn:Hsc |].
  all: try (right; exists p; split; [reflexivity |]; right; left;
            apply test_select_scale_region in Hsc; tauto).
  all: destruct (has_flag (transform mpr)
                   ED_MANIPULATOR_CAGE2D_XFORM_FLAG_ROTATE) eqn:Hr;
    [destruct (BLI_rctf_isect_pt_v
                 (rect_rotate (cage_size (dimensions mpr))
                    (cage_margin (dimensions mpr))) p) eqn:Hrot |];
    cbn [andb]; try (now left);
    right; exists p; (split; [reflexivity |]); right; right; auto.
Qed.

(** Past a translate test that does not answer, with a scale flag set, the
    hit test is the scale block when that block answers. *)
Lemma test_select_is_scale_block (C : bContext F) (mpr : wmManipulator F)
    (event : wmEvent) (p : arr2 F) (part : Z) :
  manipulator_window_project_2d C mpr (mval event) true = Some p ->
  scale_hit_enabled (transform mpr) = true ->
  translate_hit (transform mpr) (dimensions mpr) p = false ->
  test_select_scale (cage_size (dimensions mpr))
    (cage_margin (dimensions mpr)) p = Some part ->
  manipulator_rect_transform_test_select C mpr event = part.
Proof.
  intros Hp Hs Ht Hsc. unfold manipulator_rect_transform_test_select.
  rewrite Hp. unfold test_select_regions. cbv zeta.
  unfold translate_hit in Ht. rewrite Ht.
  unfold scale_hit_enabled in Hs. now rewrite Hs, Hsc.
Qed.

(** X2.  Corners before edges: when the translate test does not answer and
    a scale flag is set, a projected point in a strip of each axis is
    answered with a corner part, never an edge part; on an axis both of
    whose strips hold the point the min side is taken. *)
Theorem test_select_corner_over_edge (C : bContext F) (mpr : wmManipulator F)
    (event : wmEvent) (p : arr2 F) :
  let size := cage_size (dimensions mpr) in
  let margin := cage_margin (dimensions mpr) in
  manipulator_window_project_2d C mpr (mval event) true = Some p ->
  scale_hit_enabled (transform mpr) = true ->
  translate_hit (transform mpr) (dimensions mpr) p = false ->
  BLI_rctf_isect_pt_v (rect_xmin size margin) p
  || BLI_rctf_isect_pt_v (rect_xmax size margin) p = true ->
  BLI_rctf_isect_pt_v (rect_ymin size margin) p
  || BLI_rctf_isect_pt_v (rect_ymax size margin) p = true ->
  let part := manipulator_rect_transform_test_select C mpr event in
  In part corner_parts
  /\ ~ In part edge_parts
  /\ part
     = if BLI_rctf_isect_pt_v (rect_xmin size margin) p
       then if BLI_rctf_isect_pt_v (rect_ymin size margin) p
            then ED_MANIPULATOR_CAGE2D_PART_SCALE_MIN_X_MIN_Y
            else ED_MANIPULATOR_CAGE2D_PART_SCALE_MIN_X_MAX_Y
       else if BLI_rctf_isect_pt_v (rect_ymin size margin) p
            then ED_MANIPULATOR_CAGE2D_PART_SCALE_MAX_X_MIN_Y
            else ED_MANIPULATOR_CAGE2D_PART_SCALE_MAX_X_MAX_Y.
Proof.
  intros size margin Hp Hs Ht Hx Hy part.
  assert (exists q, test_select_scale size margin p = Some q
                    /\ In q corner_parts /\ ~ In q edge_parts
                    /\ q = if BLI_rctf_isect_pt_v (rect_xmin size margin) p
                           then if BLI_rctf_isect_pt_v (rect_ymin size margin) p
                                then ED_MANIPULATOR_CAGE2D_PART_SCALE_MIN_X_MIN_Y
                                else ED_MANIPULATOR_CAGE2D_PART_SCALE_MIN_X_MAX_Y
                           else if BLI_rctf_isect_pt_v (rect_ymin size margin) p
                                then ED_MANIPULATOR_CAGE2D_PART_SCALE_MAX_X_MIN_Y
                                else ED_MANIPULATOR_CAGE2D_PART_SCALE_MAX_X_MAX_Y)
    as (q & Hq & Hc & He & Hw).
  { unfold test_select_scale. cbv zeta.
    destruct (BLI_rctf_isect_pt_v (rect_xmin size margin) p);
    destruct (BLI_rctf_isect_pt_v (rect_xmax size margin) p);
    destruct (BLI_rctf_isect_pt_v (rect_ymin size margin) p);
    destruct (BLI_rctf_isect_pt_v (rect_ymax size margin) p);
    try discriminate Hx; try discriminate Hy;
    eexists; (split; [reflexivity |]);
    (split; [cbv [corner_parts In]; tauto |]);
    (split; [| reflexivity]);
    cbv; intuition discriminate. }
  subst part.
  rewrite (test_select_is_scale_block C mpr event p q Hp Hs Ht Hq).
  auto.
Qed.

(** X3.  A projected point in a strip of one axis only is answered with
    the edge part of that strip, the min side when both strips of the axis
    hold it, under the same conditions on the translate test and the scale
    flags. *)
Theorem test_select_edge (C : bContext F) (mpr : wmManipulator F)
    (event : wmEvent) (p : arr2 F) :
  let size := cage_size (dimensions mpr) in
  let margin := cage_margin (dimensions mpr) in
  let in_xmin := BLI_rctf_isect_pt_v (rect_xmin size margin) p in
  let in_xmax := BLI_rctf_isect_pt_v (rect_xmax size margin) p in
  let in_ymin := BLI_rctf_isect_pt_v (rect_ymin size margin) p in
  let in_ymax := BLI_rctf_isect_pt_v (rect_ymax size margin) p in
  manipulator_window_project_2d C mpr (mval event) true = Some p ->
  scale_hit_enabled (transform mpr) = true ->
  translate_hit (transform mpr) (dimensions mpr) p = false ->
  xorb (in_xmin || in_xmax) (in_ymin || in_ymax) = true ->
  let part := manipulator_rect_transform_test_select C mpr event in
  In part edge_parts
  /\ part
     = if in_xmin then ED_MANIPULATOR_CAGE2D_PART_SCALE_MIN_X
       else if in_xmax then ED_MANIPULATOR_CAGE2D_PART_SCALE_MAX_X
       else if in_ymin then ED_MANIPULATOR_CAGE2D_PART_SCALE_MIN_Y
       else ED_MANIPULATOR_CAGE2D_PART_SCALE_MAX_Y.
Proof.
  intros size margin in_xmin in_xmax in_ymin in_ymax Hp Hs Ht Hone part.
  assert (exists q, test_select_scale size margin p = Some q
                    /\ In q edge_parts
                    /\ q = if in_xmin
                           then ED_MANIPULATOR_CAGE2D_PART_SCALE_MIN_X
                           else if in_xmax
                           then ED_MANIPULATOR_CAGE2D_PART_SCALE_MAX_X
                           else if in_ymin
                           then ED_MANIPULATOR_CAGE2D_PART_SCALE_MIN_Y
                           else ED_MANIPULATOR_CAGE2D_PART_SCALE_MAX_Y)
    as (q & Hq & He & Hw).
  { unfold test_select_scale. cbv zeta.
    fold in_xmin in_xmax in_ymin in_ymax.
    destruct in_xmin, in_xmax, in_ymin, in_ymax; try discriminate Hone;
    eexists; (split; [reflexivity |]);
    (split; [cbv [edge_parts In]; tauto | reflexivity]). }
  subst part.
  rewrite (test_select_is_scale_block C mpr event p q Hp Hs Ht Hq).
  auto.
Qed.

(** X4.  The hit test reads the two scale flags as one: two manipulators
    of the same dimensions whose flags agree on translate, on rotate and
    on "scale or uniform scale" give the same answer for the same
    projected point. *)
Theorem test_select_scale_flags_alike (C C' : bContext F)
    (mpr mpr' : wmManipulator F) (event event' : wmEvent) (p : arr2 F) :
  manipulator_window_project_2d C mpr (mval event) true = Some p ->
  manipulator_window_project_2d C' mpr' (mval event') true = Some p ->
  dimensions mpr' = dimensions mpr ->
  has_flag (transform mpr') ED_MANIPULATOR_CAGE2D_XFORM_FLAG_TRANSLATE
  = has_flag (transform mpr) ED_MANIPULATOR_CAGE2D_XFORM_FLAG_TRANSLATE ->
  has_flag (transform mpr') ED_MANIPULATOR_CAGE2D_XFORM_FLAG_ROTATE
  = has_flag (transform mpr) ED_MANIPULATOR_CAGE2D_XFORM_FLAG_ROTATE ->
  has_flag (transform mpr') ED_MANIPULATOR_CAGE2D_XFORM_FLAG_SCALE
  || has_flag (transform mpr') ED_MANIPULATOR_CAGE2D_XFORM_FLAG_SCALE_UNIFORM
  = has_flag (transform mpr) ED_MANIPULATOR_CAGE2D_XFORM_FLAG_SCALE
    || has_flag (transform mpr) ED_MANIPULATOR_CAGE2D_XFORM_FLAG_SCALE_UNIFORM ->
  manipulator_rect_transform_test_select C' mpr' event'
  = manipulator_rect_transform_test_select C mpr event.
Proof.
  intros Hp Hp' Hd Ht Hr Hs. unfold manipulator_rect_transform_test_select.
  rewrite Hp, Hp'. unfold test_select_regions. cbv zeta.
  now rewrite !has_flag_lor, Hd, Ht, Hr, Hs.
Qed.

End HitTestProperties.

Section SessionProperties.
Context {F : Type} `{FloatOps F}.
Local Open Scope fl_scope.

(** Two manipulators with the same six fields are the same. *)
Lemma wmManipulator_ext (a b : wmManipulator F) :
  dimensions a = dimensions b -> transform a = transform b ->
  matrix_offset a = matrix_offset b -> highlight_part a = highlight_part b ->
  interaction_data a = interaction_data b ->
  target_matrix a = target_matrix b ->
  a = b.
Proof. destruct a, b; cbn; intros; congruence. Qed.

(** The branch on the active part fails only in the pivot table. *)
Lemma modal_branch_abort_iff (mpr : wmManipulator F) (transform_flag : Z)
    (dims : arr2 F) (data : RectTransformInteraction F)
    (point_local value_xy : arr2 F) (f : failure) :
  modal_branch mpr transform_flag dims data point_local value_xy = Abort f
  <-> has_flag transform_flag ED_MANIPULATOR_CAGE2D_XFORM_FLAG_TRANSLATE = true
      /\ ~ In (highlight_part mpr) cage_parts
      /\ f = AssertionFailure.
Proof.
  unfold modal_branch. cbv zeta. cbn [highlight_part set_matrix_offset].
  destruct (Z.eqb_spec (highlight_part mpr)
              ED_MANIPULATOR_CAGE2D_PART_TRANSLATE) as [Et|Nt].
  { split; [discriminate |]. intros (_ & N & _). exfalso. apply N.
    left. now symmetry. }
  destruct (Z.eqb_spec (highlight_part mpr)
              ED_MANIPULATOR_CAGE2D_PART_ROTATE) as [Er|Nr].
  { split; [discriminate |]. intros (_ & N & _). exfalso. apply N.
    right; left. now symmetry. }
  unfold modal_pivot.
  destruct (has_flag transform_flag ED_MANIPULATOR_CAGE2D_XFORM_FLAG_TRANSLATE).
  - destruct (in_dec Z.eq_dec (highlight_part mpr) scale_parts) as [I|N].
    + destruct (pivot_from_scale_part_done (F := F) _ I) as (pivot & ca & ->).
      split; [discriminate |]. intros (_ & N & _). exfalso. apply N.
      now right; right.
    + rewrite (pivot_from_scale_part_default _ N). split.
      * intros [= <-]. repeat split.
        intros [E|[E|I]]; [now apply Nt | now apply Nr | now apply N].
      * now intros (_ & _ & ->).
  - split; [discriminate |]. now intros (E & _).
Qed.

(** X5.  An update fails in two cases only: there is no session data, or
    the pointer projects, translation is enabled and the active part is
    none of the ten parts, which ends in the assertion of the pivot table.
    With translation disabled no part value fails. *)
Theorem modal_abort_iff (C : bContext F) (mpr : wmManipulator F)
    (event : wmEvent) (f : failure) :
  manipulator_rect_transform_modal C mpr event = Abort f
  <-> (interaction_data mpr = None /\ f = NullInteractionData)
      \/ (exists data p,
            interaction_data mpr = Some data
            /\ manipulator_window_project_2d C
                 (set_matrix_offset mpr (orig_matrix_offset data))
                 (mval event) false = Some p
            /\ has_flag (transform mpr)
                 ED_MANIPULATOR_CAGE2D_XFORM_FLAG_TRANSLATE = true
            /\ ~ In (highlight_part mpr) cage_parts
            /\ f = AssertionFailure).
Proof.
  destruct (interaction_data mpr) as [data|] eqn:Hd.
  - destruct (manipulator_window_project_2d C
                (set_matrix_offset mpr (orig_matrix_offset data))
                (mval event) false) as [p|] eqn:Hp.
    + rewrite (modal_projected C mpr event data p Hd Hp).
      destruct (target_property_value_get_fields mpr) as (_ & _ & Hh & _).
      pose proof (modal_branch_abort_iff (target_property_value_get mpr)
                    (transform mpr) (dimensions mpr) data p
                    (pointer_delta data p) f) as B.
      rewrite Hh in B.
      destruct (modal_branch _ _ _ _ _ _) as [m|g].
      * split; [discriminate |].
        intros [[[=] _]|(d & q & _ & _ & A)].
        apply B in A. discriminate A.
      * split.
        -- intros [= <-]. right. exists data, p.
           destruct B as [B _]. specialize (B eq_refl). tauto.
        -- intros [[[=] _]|(d & q & _ & _ & A)].
           destruct B as [_ B]. specialize (B A). now injection B as ->.
    + rewrite (modal_not_projected C mpr event data Hd Hp).
      split; [discriminate |].
      intros [[[=] _]|(d & q & [= <-] & Hq & _)]. congruence.
  - unfold manipulator_rect_transform_modal. rewrite Hd. split.
    + intros [= <-]. now left.
    + intros [[_ ->]|(d & q & [=] & _)]. reflexivity.
Qed.

(** The branch on the active part keeps the configuration. *)
Lemma modal_branch_frame (mpr mpr' : wmManipulator F) (transform_flag : Z)
    (dims : arr2 F) (data : RectTransformInteraction F)
    (point_local value_xy : arr2 F) :
  modal_branch mpr transform_flag dims data point_local value_xy = Done mpr' ->
  dimensions mpr' = dimensions mpr /\ transform mpr' = transform mpr.
Proof.
  unfold modal_branch. cbv zeta.
  destruct (highlight_part mpr =? ED_MANIPULATOR_CAGE2D_PART_TRANSLATE)%Z.
  - intros [= <-]. repeat split.
  - destruct (highlight_part mpr =? ED_MANIPULATOR_CAGE2D_PART_ROTATE)%Z.
    + intros [= <-]. repeat split.
    + destruct (modal_pivot transform_flag _) as [[pivot ca]|f];
        [| discriminate].
      intros [= <-]. repeat split.
Qed.

(** What an update that returns has written. *)
Lemma modal_frame (C : bContext F) (mpr : wmManipulator F) (event : wmEvent)
    (o : outcome F) :
  manipulator_rect_transform_modal C mpr event = Done o ->
  dimensions (out_mpr o) = dimensions mpr
  /\ transform (out_mpr o) = transform mpr
  /\ highlight_part (out_mpr o) = highlight_part mpr
  /\ interaction_data (out_mpr o) = interaction_data mpr
  /\ out_status o = OPERATOR_RUNNING_MODAL
  /\ ((out_requests o = [] /\ out_mpr o = mpr)
      \/ (out_requests o = [RegionTagRedraw; EventAddMousemove]
          /\ target_matrix (out_mpr o)
             = option_map (fun _ => matrix_offset (out_mpr o))
                 (target_matrix mpr))).
Proof.
  intros Ho.
  destruct (modal_keeps_session C mpr event o Ho) as (Hi & Hh & _).
  destruct (interaction_data mpr) as [data|] eqn:Hd;
    [| unfold manipulator_rect_transform_modal in Ho; rewrite Hd in Ho;
       discriminate].
  destruct (manipulator_window_project_2d C
              (set_matrix_offset mpr (orig_matrix_offset data)) (mval event)
              false) as [p|] eqn:Hp.
  - rewrite (modal_projected C mpr event data p Hd Hp) in Ho.
    destruct (modal_branch _ _ _ _ _ _) as [m|g] eqn:Hb; [| discriminate].
    injection Ho as <-.
    destruct (modal_branch_frame _ _ _ _ _ _ _ Hb) as [Hdim Htf].
    destruct (modal_branch_fields _ _ _ _ _ _ _ Hb) as (_ & _ & Ht).
    destruct (target_property_value_get_fields mpr)
      as (Hdim' & Htf' & _ & _ & Ht' & _).
    destruct (target_property_value_set_fields m (matrix_offset m))
      as (Hdim'' & Htf'' & _ & _ & Hm'' & Ht'').
    unfold modal_done in *. cbn [out_mpr out_status out_requests] in *.
    rewrite Hdim'', Htf'', Hdim, Htf, Hdim', Htf'.
    repeat (split; [trivial |]). right. split; [reflexivity |].
    now rewrite Ht'', Hm'', Ht, Ht'.
  - rewrite (modal_not_projected C mpr event data Hd Hp) in Ho.
    injection Ho as <-. cbn. repeat (split; [trivial |]). now left.
Qed.

(** X6.  An update that returns leaves the dimensions, the transform flags,
    the active part and the session data as they were and returns the
    running status; either it asks nothing of the host and changes
    nothing, or it asks for the redraw and the mouse move and leaves the
    bound property, when there is one, equal to the matrix it stored. *)
Theorem modal_writes_matrix_only (C : bContext F) (mpr : wmManipulator F)
    (event : wmEvent) (o : outcome F) :
  manipulator_rect_transform_modal C mpr event = Done o ->
  dimensions (out_mpr o) = dimensions mpr
  /\ transform (out_mpr o) = transform mpr
  /\ highlight_part (out_mpr o) = highlight_part mpr
  /\ interaction_data (out_mpr o) = interaction_data mpr
  /\ out_status o = OPERATOR_RUNNING_MODAL
  /\ ((out_requests o = [] /\ out_mpr o = mpr)
      \/ (out_requests o = [RegionTagRedraw; EventAddMousemove]
          /\ target_matrix (out_mpr o)
             = option_map (fun _ => matrix_offset (out_mpr o))
                 (target_matrix mpr))).
Proof. exact (modal_frame C mpr event o). Qed.

(** An update that returns keeps or establishes the mirror. *)
Lemma modal_mirrored (C : bContext F) (mpr : wmManipulator F)
    (event : wmEvent) (o : outcome F) :
  mirrored mpr ->
  manipulator_rect_transform_modal C mpr event = Done o ->
  mirrored (out_mpr o).
Proof.
  intros M Ho.
  destruct (modal_frame C mpr event o Ho)
    as (_ & _ & _ & _ & _ & [[_ ->]|[_ Ht]]); [exact M |].
  unfold mirrored. rewrite Ht.
  destruct (target_matrix mpr); cbn; auto.
Qed.

(** A run of updates keeps the configuration and the mirror. *)
Lemma run_modal_frame (moves : list (bContext F * wmEvent))
    (mpr mprN : wmManipulator F) :
  run_modal mpr moves = Done mprN ->
  dimensions mprN = dimensions mpr
  /\ transform mprN = transform mpr
  /\ highlight_part mprN = highlight_part mpr
  /\ interaction_data mprN = interaction_data mpr
  /\ (target_matrix mprN = None <-> target_matrix mpr = None)
  /\ (mirrored mpr -> mirrored mprN).
Proof.
  revert mpr. induction moves as [| [C event] moves IH]; intros mpr; cbn.
  - intros [= <-]. repeat split; auto.
  - destruct (manipulator_rect_transform_modal C mpr event) as [o|f] eqn:Ho;
      [| discriminate].
    intros Hrun. destruct (IH _ Hrun) as (-> & -> & -> & -> & -> & IM).
    destruct (modal_frame C mpr event o Ho) as (-> & -> & -> & -> & _ & _).
    destruct (modal_keeps_session C mpr event o Ho) as (_ & _ & ->).
    repeat (split; [reflexivity |]).
    intros M. apply IM. now apply modal_mirrored with (C := C) (mpr := mpr)
                                                      (event := event).
Qed.

(** A drag on one of the ten parts returns, released or cancelled. *)
Lemma drag_session_returns (C : bContext F) (mpr : wmManipulator F)
    (press : wmEvent) (moves : list (bContext F * wmEvent)) (cancel : bool) :
  In (highlight_part mpr) cage_parts ->
  exists mprN r,
    run_modal (out_mpr (manipulator_rect_transform_invoke C mpr press)) moves
      = Done mprN
    /\ drag_session C mpr press moves cancel = Done r
    /\ r = (if cancel
            then set_matrix_offset
                   (target_property_value_set mprN (matrix_offset mpr))
                   (matrix_offset mpr)
            else mprN).
Proof.
  intros I.
  destruct (run_modal_returns moves
              (out_mpr (manipulator_rect_transform_invoke C mpr press))
              {| orig_mouse :=
                   match
                     manipulator_window_project_2d C mpr (mval press) false
                   with
                   | Some p => p
                   | None => zero_v2
                   end;
                 orig_matrix_offset := matrix_offset mpr |}
              eq_refl I) as (mprN & Hrun & Hi & _).
  exists mprN. unfold drag_session. rewrite Hrun.
  unfold manipulator_rect_transform_exit.
  destruct cancel; cbn [negb]; [rewrite Hi |]; eexists; repeat split.
Qed.

(** X7.  The mirror is an invariant of a drag: when the bound property
    equals the local matrix at the press (or nothing is bound), it does so
    again after any list of updates followed by a release or a cancel. *)
Theorem drag_session_keeps_mirror (C : bContext F) (mpr : wmManipulator F)
    (press : wmEvent) (moves : list (bContext F * wmEvent)) (cancel : bool) :
  mirrored mpr ->
  In (highlight_part mpr) cage_parts ->
  exists r, drag_session C mpr press moves cancel = Done r /\ mirrored r.
Proof.
  intros M I.
  destruct (drag_session_returns C mpr press moves cancel I)
    as (mprN & r & Hrun & Hr & ->).
  eexists; split; [exact Hr |].
  destruct (run_modal_frame _ _ _ Hrun) as (_ & _ & _ & _ & _ & IM).
  destruct cancel.
  - unfold mirrored.
    destruct (target_property_value_set_fields mprN (matrix_offset mpr))
      as (_ & _ & _ & _ & _ & Ht).
    cbn [target_matrix matrix_offset set_matrix_offset]. rewrite Ht.
    destruct (target_matrix mprN); cbn; auto.
  - apply IM. exact M.
Qed.

(** X10.  A cancelled drag is undone as a whole: when the bound property
    mirrors the matrix at the press, the manipulator after any list of
    updates and a cancel is the manipulator right after the press, field
    by field. *)
Theorem drag_session_cancel_is_press (C : bContext F) (mpr : wmManipulator F)
    (press : wmEvent) (moves : list (bContext F * wmEvent)) :
  mirrored mpr ->
  In (highlight_part mpr) cage_parts ->
  drag_session C mpr press moves true
  = Done (out_mpr (manipulator_rect_transform_invoke C mpr press)).
Proof.
  intros M I.
  destruct (drag_session_returns C mpr press moves true I)
    as (mprN & r & Hrun & Hr & ->).
  rewrite Hr. f_equal.
  destruct (run_modal_frame _ _ _ Hrun) as (Hdim & Htf & Hh & Hi & Hb & _).
  destruct (target_property_value_set_fields mprN (matrix_offset mpr))
    as (Hdim' & Htf' & Hh' & Hi' & _ & Ht').
  apply wmManipulator_ext;
    cbn [dimensions transform matrix_offset highlight_part interaction_data
         target_matrix set_matrix_offset];
    try congruence; [reflexivity |].
  rewrite Ht'.
  cbn [manipulator_rect_transform_invoke out_mpr set_interaction_data
       target_matrix] in *.
  destruct M as [M|M]; rewrite M in *.
  - destruct Hb as [_ Hb]. now rewrite (Hb eq_refl).
  - destruct (target_matrix mprN); [reflexivity |].
    destruct Hb as [Hb _]. discriminate (Hb eq_refl).
Qed.

(** An update whose pointer projects pushes the matrix it stored. *)
Lemma modal_projected_pushes (C : bContext F) (mpr : wmManipulator F)
    (event : wmEvent) (data : RectTransformInteraction F) (p : arr2 F)
    (o : outcome F) :
  interaction_data mpr = Some data ->
  manipulator_window_project_2d C
    (set_matrix_offset mpr (orig_matrix_offset data)) (mval event) false
    = Some p ->
  manipulator_rect_transform_modal C mpr event = Done o ->
  out_requests o = [RegionTagRedraw; EventAddMousemove]
  /\ target_matrix (out_mpr o)
     = option_map (fun _ => matrix_offset (out_mpr o)) (target_matrix mpr).
Proof.
  intros Hd Hp Ho.
  rewrite (modal_projected C mpr event data p Hd Hp) in Ho.
  destruct (modal_branch _ _ _ _ _ _) as [m|g] eqn:Hb; [| discriminate].
  injection Ho as <-. split; [reflexivity |].
  destruct (modal_branch_fields _ _ _ _ _ _ _ Hb) as (_ & _ & Ht).
  destruct (target_property_value_get_fields mpr) as (_ & _ & _ & _ & Ht' & _).
  now rewrite modal_done_target_matrix, modal_done_matrix_offset, Ht, Ht'.
Qed.

(** An update of the translate area or of a scale part computes its matrix
    from the session data, the pointer and the configuration alone. *)
Lemma modal_matrix_from_snapshot (C C' : bContext F)
    (mpr mpr' : wmManipulator F) (event event' : wmEvent)
    (data : RectTransformInteraction F) (p : arr2 F) :
  In (highlight_part mpr)
    (ED_MANIPULATOR_CAGE2D_PART_TRANSLATE :: scale_parts) ->
  interaction_data mpr = Some data -> interaction_data mpr' = Some data ->
  dimensions mpr' = dimensions mpr -> transform mpr' = transform mpr ->
  highlight_part mpr' = highlight_part mpr ->
  manipulator_window_project_2d C
    (set_matrix_offset mpr (orig_matrix_offset data)) (mval event) false
    = Some p ->
  manipulator_window_project_2d C'
    (set_matrix_offset mpr' (orig_matrix_offset data)) (mval event') false
    = Some p ->
  exists o o',
    manipulator_rect_transform_modal C mpr event = Done o
    /\ manipulator_rect_transform_modal C' mpr' event' = Done o'
    /\ matrix_offset (out_mpr o') = matrix_offset (out_mpr o).
Proof.
  intros I Hd Hd' Hdim Htf Hh Hp Hp'. destruct I as [E|I].
  - rewrite (modal_projected C mpr event data p Hd Hp).
    rewrite (modal_projected C' mpr' event' data p Hd' Hp').
    destruct (target_property_value_get_fields mpr) as (_ & _ & Hg & _).
    destruct (target_property_value_get_fields mpr') as (_ & _ & Hg' & _).
    unfold modal_branch. rewrite Hg, Hg', Hh, <- E, Z.eqb_refl. cbv zeta.
    eexists; eexists. split; [reflexivity |]. split; [reflexivity |].
    now rewrite !modal_done_matrix_offset.
  - destruct (modal_pivot_done (F := F) (transform mpr) (highlight_part mpr) I)
      as (pivot & ca & Hpivot).
    destruct (scale_part_not_translate_rotate _ I) as [Ht Hr].
    destruct (modal_scale_branch C mpr event data p pivot ca Hd Ht Hr Hp
                Hpivot) as (o & Ho & _ & Hm & _).
    rewrite <- Hh in Ht, Hr. rewrite <- Hh, <- Htf in Hpivot.
    destruct (modal_scale_branch C' mpr' event' data p pivot ca Hd' Ht Hr Hp'
                Hpivot) as (o' & Ho' & _ & Hm' & _).
    exists o, o'. repeat split; trivial.
    now rewrite Hm, Hm', Htf, Hdim.
Qed.

(** X8.  A drag of the translate area or of a scale part has no memory:
    after any list of updates, an update whose pointer projects stores the
    matrix, and pushes the property value, that the same update stores
    right after the press. *)
Theorem modal_forgets_earlier_moves (C : bContext F) (mpr : wmManipulator F)
    (press : wmEvent) (moves : list (bContext F * wmEvent))
    (mprN : wmManipulator F) (C' : bContext F) (event : wmEvent)
    (p : arr2 F) :
  let pressed := out_mpr (manipulator_rect_transform_invoke C mpr press) in
  In (highlight_part mpr)
    (ED_MANIPULATOR_CAGE2D_PART_TRANSLATE :: scale_parts) ->
  run_modal pressed moves = Done mprN ->
  manipulator_window_project_2d C'
    (set_matrix_offset pressed (matrix_offset mpr)) (mval event) false
    = Some p ->
  manipulator_window_project_2d C'
    (set_matrix_offset mprN (matrix_offset mpr)) (mval event) false
    = Some p ->
  exists o o',
    manipulator_rect_transform_modal C' pressed event = Done o
    /\ manipulator_rect_transform_modal C' mprN event = Done o'
    /\ matrix_offset (out_mpr o') = matrix_offset (out_mpr o)
    /\ target_matrix (out_mpr o') = target_matrix (out_mpr o).
Proof.
  intros pressed I Hrun Hp HpN.
  destruct (run_modal_frame _ _ _ Hrun) as (Hdim & Htf & Hh & Hi & Hb & _).
  destruct (modal_matrix_from_snapshot C' C' pressed mprN event event
              {| orig_mouse :=
                   match
                     manipulator_window_project_2d C mpr (mval press) false
                   with
                   | Some q => q
                   | None => zero_v2
                   end;
                 orig_matrix_offset := matrix_offset mpr |} p I eq_refl Hi
              Hdim Htf Hh Hp HpN) as (o & o' & Ho & Ho' & Hm).
  exists o, o'. repeat (split; [trivial |]).
  destruct (modal_projected_pushes C' pressed event _ p o eq_refl Hp Ho)
    as [_ Ht].
  destruct (modal_projected_pushes C' mprN event _ p o' Hi HpN Ho')
    as [_ Ht'].
  rewrite Ht, Ht', Hm.
  destruct (target_matrix mprN), (target_matrix pressed); cbn;
    try reflexivity; destruct Hb; intuition discriminate.
Qed.

(** The branch on the active part, run again on what the update left,
    computes what it computed. *)
Lemma modal_branch_again (mpr m1 : wmManipulator F) (transform_flag : Z)
    (dims : arr2 F) (data : RectTransformInteraction F)
    (point_local value_xy : arr2 F) :
  modal_branch mpr transform_flag dims data point_local value_xy = Done m1 ->
  exists m2,
    modal_branch (target_property_value_get (out_mpr (modal_done m1)))
      transform_flag dims data point_local value_xy = Done m2
    /\ modal_done m2 = modal_done m1.
Proof.
  destruct mpr as [d tf m part idata tgt].
  unfold modal_branch, modal_done, target_property_value_get,
    target_property_value_set, set_matrix_offset, set_target_matrix.
  cbn.
  destruct (part =? ED_MANIPULATOR_CAGE2D_PART_TRANSLATE)%Z eqn:Et.
  { intros [= <-]. destruct tgt; cbn; rewrite Et;
      eexists; split; reflexivity. }
  destruct (part =? ED_MANIPULATOR_CAGE2D_PART_ROTATE)%Z eqn:Er.
  { intros [= <-]. destruct tgt; cbn; rewrite Et, Er;
      eexists; split; reflexivity. }
  destruct (modal_pivot transform_flag part) as [[pivot ca]|f] eqn:Ep;
    [| discriminate].
  intros [= <-]. destruct tgt; cbn; rewrite Et, Er, Ep;
    eexists; split; reflexivity.
Qed.

(** X9.  An update is idempotent: repeating it with the same event, when
    the pointer projects as it did the first time, gives the same outcome
    and leaves the manipulator as the first update left it. *)
Theorem modal_idempotent (C : bContext F) (mpr : wmManipulator F)
    (event : wmEvent) (data : RectTransformInteraction F) (o : outcome F) :
  interaction_data mpr = Some data ->
  manipulator_rect_transform_modal C mpr event = Done o ->
  manipulator_window_project_2d C
    (set_matrix_offset (out_mpr o) (orig_matrix_offset data)) (mval event)
    false
  = manipulator_window_project_2d C
      (set_matrix_offset mpr (orig_matrix_offset data)) (mval event) false ->
  manipulator_rect_transform_modal C (out_mpr o) event = Done o.
Proof.
  intros Hd Ho Hsame.
  destruct (modal_frame C mpr event o Ho) as (Hdim & Htf & _ & Hi & _ & _).
  rewrite Hd in Hi.
  destruct (manipulator_window_project_2d C
              (set_matrix_offset mpr (orig_matrix_offset data)) (mval event)
              false) as [p|] eqn:Hp.
  - rewrite (modal_projected C (out_mpr o) event data p Hi Hsame).
    rewrite (modal_projected C mpr event data p Hd Hp) in Ho.
    rewrite Hdim, Htf.
    destruct (modal_branch (target_property_value_get mpr) _ _ _ _ _)
      as [m1|g] eqn:Hb; [| discriminate].
    injection Ho as <-.
    destruct (modal_branch_again _ _ _ _ _ _ _ Hb) as (m2 & -> & ->).
    reflexivity.
  - rewrite (modal_not_projected C mpr event data Hd Hp) in Ho.
    injection Ho as <-. cbn [out_mpr] in *.
    now apply modal_not_projected with (data := data).
Qed.

(** The hit test answers [-1] or one of the ten parts. *)
Lemma test_select_range (C : bContext F) (mpr : wmManipulator F)
    (event : wmEvent) :
  manipulator_rect_transform_test_select C mpr event = (-1)%Z
  \/ In (manipulator_rect_transform_test_select C mpr event) cage_parts.
Proof.
  unfold manipulator_rect_transform_test_select.
  destruct (manipulator_window_project_2d C mpr (mval event) true)
    as [p|]; [| now left].
  unfold test_select_regions. cbv zeta.
  destruct (has_flag (transform mpr) ED_MANIPULATOR_CAGE2D_XFORM_FLAG_TRANSLATE
            && BLI_rctf_isect_pt_v _ p); [right; now left |].
  destruct (if has_flag (transform mpr) _ then _ else None) as [part|] eqn:Hs.
  - right. right; right.
    destruct (has_flag (transform mpr) _); [| discriminate].
    now apply test_select_scale_region in Hs.
  - destruct (has_flag (transform mpr) ED_MANIPULATOR_CAGE2D_XFORM_FLAG_ROTATE
              && BLI_rctf_isect_pt_v _ p); [right; right; now left | now left].
Qed.

(** X11.  Whatever part the hit test answers can be dragged: a session on
    a manipulator whose active part is an answer of the hit test other
    than [-1] goes through any list of updates and ends, released or
    cancelled, without reaching the assertion of the pivot table. *)
Theorem hit_part_can_be_dragged (C0 : bContext F) (mpr0 : wmManipulator F)
    (event0 : wmEvent) (C : bContext F) (mpr : wmManipulator F)
    (press : wmEvent) (moves : list (bContext F * wmEvent)) (cancel : bool) :
  manipulator_rect_transform_test_select C0 mpr0 event0 <> (-1)%Z ->
  highlight_part mpr = manipulator_rect_transform_test_select C0 mpr0 event0 ->
  exists r, drag_session C mpr press moves cancel = Done r.
Proof.
  intros Hhit Hpart.
  destruct (test_select_range C0 mpr0 event0) as [E|I]; [contradiction |].
  rewrite <- Hpart in I.
  destruct (drag_session_returns C mpr press moves cancel I)
    as (_ & r & _ & Hr & _).
  now exists r.
Qed.

End SessionProperties.

Section ViewProperties.
Context {F : Type} `{FloatOps F}.
Local Open Scope fl_scope.

(** The value [-1] is none of the ten parts. *)
Lemma part_codes_not_sentinel_neg : ~ In (-1)%Z cage_parts.
Proof. intros I. now apply (part_codes_not_sentinel (-1)%Z I). Qed.

(** In a 2D group the standard cursor is shown for the values that are
    none of the ten parts, and for those only. *)
Lemma get_cursor_std_iff (group_3d group_type_flag : Z)
    (mpr : wmManipulator F) :
  has_flag group_type_flag group_3d = false ->
  manipulator_rect_transform_get_cursor group_3d group_type_flag mpr
  = CURSOR_STD
  <-> ~ In (highlight_part mpr) cage_parts.
Proof.
  intros H2d. unfold manipulator_rect_transform_get_cursor. rewrite H2d.
  cbv zeta.
  destruct (in_dec Z.eq_dec (highlight_part mpr) cage_parts) as [I|N].
  - split; [| contradiction]. intros E. exfalso. revert E.
    cbv [cage_parts scale_parts In] in I.
    destruct I as [<-|[<-|[<-|[<-|[<-|[<-|[<-|[<-|[<-|[<-|[]]]]]]]]]]];
      cbn; discriminate.
  - split; [intros _; exact N | intros _].
    repeat match goal with
    | |- context [(highlight_part mpr =? ?c)%Z] =>
        destruct (Z.eqb_spec (highlight_part mpr) c) as [E|_];
        [exfalso; apply N; rewrite E; cbv [cage_parts scale_parts In]; tauto |]
    end.
    reflexivity.
Qed.

(** X12.  The cursor follows the hit test: in a 2D group a manipulator
    whose active part is the answer of the hit test shows the standard
    cursor exactly when that answer is [-1]; in a 3D group it shows the
    scroll cursor whatever the answer. *)
Theorem cursor_of_hit_test (group_3d group_type_flag : Z)
    (C : bContext F) (mpr0 : wmManipulator F) (event : wmEvent)
    (mpr : wmManipulator F) :
  highlight_part mpr = manipulator_rect_transform_test_select C mpr0 event ->
  (has_flag group_type_flag group_3d = false ->
   (manipulator_rect_transform_get_cursor group_3d group_type_flag mpr
    = CURSOR_STD
    <-> manipulator_rect_transform_test_select C mpr0 event = (-1)%Z))
  /\ (has_flag group_type_flag group_3d = true ->
      manipulator_rect_transform_get_cursor group_3d group_type_flag mpr
      = BC_NSEW_SCROLLCURSOR).
Proof.
  intros Hpart. split.
  - intros H2d. rewrite (get_cursor_std_iff _ _ _ H2d), Hpart.
    destruct (test_select_range C mpr0 event) as [E|I].
    + rewrite E. split; [reflexivity | intros _].
      apply part_codes_not_sentinel_neg.
    + split; [contradiction | intros E].
      exfalso. now apply (part_codes_not_sentinel _ I).
  - intros H3d. unfold manipulator_rect_transform_get_cursor.
    now rewrite H3d.
Qed.

End ViewProperties.

Section DrawProperties.
Context {F : Type} `{FloatOps F}.
Local Open Scope fl_scope.

Lemma gl_run_app (st : gl_state) (a b : list (gl_op F)) :
  gl_run st (a ++ b)
  = match gl_run st a with
    | Some st' => gl_run st' b
    | None => None
    end.
Proof.
  revert st. induction a as [| op a IH]; intros st; cbn; [reflexivity |].
  destruct (gl_step st op); [apply IH | reflexivity].
Qed.

Lemma gl_closed_nil : gl_closed (@nil (gl_op F)).
Proof. intros depth. reflexivity. Qed.

Lemma gl_closed_app (a b : list (gl_op F)) :
  gl_closed a -> gl_closed b -> gl_closed (a ++ b).
Proof. intros Ha Hb depth. now rewrite gl_run_app, Ha, Hb. Qed.

Lemma gl_closed_run_app (a b : list (gl_op F)) (depth : nat) :
  gl_closed a -> gl_run (gl_idle depth) (a ++ b) = gl_run (gl_idle depth) b.
Proof. intros Ha. now rewrite gl_run_app, Ha. Qed.

Lemma gl_closed_if (c : bool) (a b : list (gl_op F)) :
  gl_closed a -> gl_closed b -> gl_closed (if c then a else b).
Proof. now destruct c. Qed.

Lemma gl_closed_line_width (w : F) (a : list (gl_op F)) :
  gl_closed a -> gl_closed (GlLineWidth w :: a).
Proof. intros Ha depth. apply Ha. Qed.

Lemma gl_closed_load_id (id : Z) (a : list (gl_op F)) :
  gl_closed a -> gl_closed (GpuSelectLoadId id :: a).
Proof. intros Ha depth. apply Ha. Qed.

Lemma gl_closed_flat_map {A} (f : A -> list (gl_op F)) (l : list A) :
  (forall a, gl_closed (f a)) -> gl_closed (flat_map f l).
Proof.
  intros Hf. induction l as [| a l IH]; cbn;
    [apply gl_closed_nil | now apply gl_closed_app].
Qed.

Lemma draw_corners_closed (r : @rctf F) (offsetx offsety : F)
    (color3 : F * F * F) :
  gl_closed (rect_transform_draw_corners r offsetx offsety color3).
Proof. destruct color3 as [[cr cg] cb]. intros depth. reflexivity. Qed.

(** Case analysis on the part of a drawn handle, in the order of the
    switch. *)
Ltac part_cases part :=
  repeat match goal with
  | |- context [(part =? ?c)%Z] =>
      destruct (Z.eqb_spec part c) as [->|?]
  end.

Lemma draw_interaction_closed (color : arr4 F) (part : Z)
    (size margin : arr2 F) (line_width : F) :
  gl_closed (rect_transform_draw_interaction color part size margin line_width).
Proof.
  intros depth. unfold rect_transform_draw_interaction, interaction_verts.
  cbv zeta. part_cases part; reflexivity.
Qed.

(** X13.  The calls of a draw, in normal or in select mode and whatever the
    configuration and the highlighted part, are well nested: every batch
    is begun under a bound program and holds exactly the number of
    vertices it announced, every program bound is unbound, the matrix
    pushed is popped, and nothing is left open at the end. *)
Theorem draw_calls_balanced (mpr : wmManipulator F)
    (look : wmManipulatorDraw F) (select highlight : bool) (select_id : Z)
    (depth : nat) :
  gl_run (gl_idle depth)
    (manipulator_rect_transform_draw_intern mpr look select highlight
       select_id)
  = Some (gl_idle depth).
Proof.
  unfold manipulator_rect_transform_draw_intern. cbv zeta.
  change (gl_run (gl_idle depth) ([?a; ?b; ?c] ++ ?rest))
    with (gl_run (gl_idle (S depth)) rest).
  rewrite gl_closed_run_app by apply draw_corners_closed.
  rewrite gl_closed_run_app
    by (apply gl_closed_line_width, draw_corners_closed).
  rewrite gl_closed_run_app; [reflexivity |].
  destruct select.
  - apply gl_closed_app; [| apply gl_closed_app].
    + apply gl_closed_if; [| apply gl_closed_nil].
      apply gl_closed_flat_map. intros part.
      apply gl_closed_load_id, draw_interaction_closed.
    + apply gl_closed_if; [| apply gl_closed_nil].
      apply gl_closed_load_id, draw_interaction_closed.
    + apply gl_closed_if; [| apply gl_closed_nil].
      apply draw_interaction_closed.
  - apply gl_closed_app; (apply gl_closed_if; [| apply gl_closed_nil]);
      apply draw_interaction_closed.
Qed.

Lemma loaded_ids_app (a b : list (gl_op F)) :
  loaded_ids (a ++ b) = loaded_ids a ++ loaded_ids b.
Proof.
  induction a as [| op a IH]; cbn; [reflexivity |].
  destruct op; cbn; now rewrite IH.
Qed.

Lemma loaded_ids_draw_corners (r : @rctf F) (offsetx offsety : F)
    (color3 : F * F * F) :
  loaded_ids (rect_transform_draw_corners r offsetx offsety color3) = [].
Proof. destruct color3 as [[cr cg] cb]. reflexivity. Qed.

Lemma loaded_ids_draw_interaction (color : arr4 F) (part : Z)
    (size margin : arr2 F) (line_width : F) :
  loaded_ids
    (rect_transform_draw_interaction color part size margin line_width) = [].
Proof.
  unfold rect_transform_draw_interaction, interaction_verts.
  cbv zeta. part_cases part; reflexivity.
Qed.

(** X14.  The selection ids of a select draw: the eight scale parts, each
    or-ed into the base id, when scaling is enabled (uniform scaling alone
    does not count), then the translate area when translation is enabled.
    The rotate handle is drawn without an id of its own, and a normal draw
    loads no id. *)
Theorem draw_select_ids (state_highlight : Z) (mpr : wmManipulator F)
    (look : wmManipulatorDraw F) (select_id : Z) :
  loaded_ids (manipulator_rect_transform_draw_select mpr look select_id)
  = (if has_flag (transform mpr) ED_MANIPULATOR_CAGE2D_XFORM_FLAG_SCALE
     then map (Z.lor select_id) scale_parts else [])
    ++ (if has_flag (transform mpr) ED_MANIPULATOR_CAGE2D_XFORM_FLAG_TRANSLATE
        then [Z.lor select_id ED_MANIPULATOR_CAGE2D_PART_TRANSLATE] else [])
  /\ loaded_ids (manipulator_rect_transform_draw state_highlight mpr look)
     = [].
Proof.
  unfold manipulator_rect_transform_draw, manipulator_rect_transform_draw_select,
    manipulator_rect_transform_draw_intern.
  cbv zeta. split.
  - rewrite !loaded_ids_app. cbn [loaded_ids app].
    rewrite !loaded_ids_draw_corners. cbn [app].
    destruct (has_flag (transform mpr) ED_MANIPULATOR_CAGE2D_XFORM_FLAG_SCALE);
    destruct (has_flag (transform mpr)
                ED_MANIPULATOR_CAGE2D_XFORM_FLAG_TRANSLATE);
    destruct (has_flag (transform mpr) ED_MANIPULATOR_CAGE2D_XFORM_FLAG_ROTATE);
    cbn [flat_map scale_parts map loaded_ids app];
    rewrite ?loaded_ids_app; cbn [loaded_ids app];
    rewrite ?loaded_ids_draw_interaction; reflexivity.
  - rewrite !loaded_ids_app. cbn [loaded_ids app].
    rewrite !loaded_ids_draw_corners. cbn [app].
    destruct (negb _);
    destruct (has_flag (transform mpr) ED_MANIPULATOR_CAGE2D_XFORM_FLAG_ROTATE);
    rewrite ?loaded_ids_draw_interaction; reflexivity.
Qed.

Lemma draws_tri_fan_app (a b : list (gl_op F)) :
  draws_tri_fan (a ++ b) = draws_tri_fan a || draws_tri_fan b.
Proof. apply existsb_app. Qed.

Lemma draws_tri_fan_cons (op : gl_op F) (a : list (gl_op F)) :
  draws_tri_fan (op :: a) = is_tri_fan op || draws_tri_fan a.
Proof. reflexivity. Qed.

Lemma draws_tri_fan_draw_corners (r : @rctf F) (offsetx offsety : F)
    (color3 : F * F * F) :
  draws_tri_fan (rect_transform_draw_corners r offsetx offsety color3) = false.
Proof. destruct color3 as [[cr cg] cb]. reflexivity. Qed.

(** Only the translate area is drawn as a triangle fan. *)
Lemma draws_tri_fan_draw_interaction (color : arr4 F) (part : Z)
    (size margin : arr2 F) (line_width : F) :
  draws_tri_fan
    (rect_transform_draw_interaction color part size margin line_width)
  = (part =? ED_MANIPULATOR_CAGE2D_PART_TRANSLATE)%Z.
Proof.
  unfold rect_transform_draw_interaction, interaction_verts.
  cbv zeta. part_cases part; reflexivity.
Qed.

(** The scale handles of a select draw hold no triangle fan. *)
Lemma draws_tri_fan_scale_handles (color : arr4 F) (size margin : arr2 F)
    (line_width : F) (select_id : Z) :
  draws_tri_fan
    (flat_map
       (fun part =>
          GpuSelectLoadId (Z.lor select_id part)
          :: rect_transform_draw_interaction color part size margin line_width)
       scale_parts) = false.
Proof.
  unfold scale_parts. cbn [flat_map].
  rewrite !draws_tri_fan_app, !draws_tri_fan_cons,
    !draws_tri_fan_draw_interaction.
  reflexivity.
Qed.

(** X15.  The filled quad of the translate area is drawn in select mode
    with translation enabled and in no other case: a normal draw never
    fills it, even while the translate area is the highlighted part. *)
Theorem draw_translate_quad_only_for_select (mpr : wmManipulator F)
    (look : wmManipulatorDraw F) (select highlight : bool) (select_id : Z) :
  draws_tri_fan
    (manipulator_rect_transform_draw_intern mpr look select highlight
       select_id)
  = select
    && has_flag (transform mpr) ED_MANIPULATOR_CAGE2D_XFORM_FLAG_TRANSLATE.
Proof.
  unfold manipulator_rect_transform_draw_intern. cbv zeta.
  rewrite !draws_tri_fan_app, !draws_tri_fan_cons,
    !draws_tri_fan_draw_corners.
  cbn [is_tri_fan orb]. change (draws_tri_fan (@nil (gl_op F))) with false.
  rewrite !orb_false_r.
  destruct select; cbn [andb]; rewrite !draws_tri_fan_app.
  - destruct (has_flag (transform mpr) ED_MANIPULATOR_CAGE2D_XFORM_FLAG_SCALE);
    destruct (has_flag (transform mpr)
                ED_MANIPULATOR_CAGE2D_XFORM_FLAG_TRANSLATE);
    destruct (has_flag (transform mpr) ED_MANIPULATOR_CAGE2D_XFORM_FLAG_ROTATE);
    rewrite ?draws_tri_fan_scale_handles, ?draws_tri_fan_cons,
      ?draws_tri_fan_draw_interaction;
    reflexivity.
  - destruct (Z.eqb_spec (highlight_part mpr)
                ED_MANIPULATOR_CAGE2D_PART_TRANSLATE) as [E|N];
    destruct (has_flag (transform mpr) ED_MANIPULATOR_CAGE2D_XFORM_FLAG_ROTATE);
    cbn [negb]; rewrite ?draws_tri_fan_draw_interaction;
    try (apply Z.eqb_neq in N; rewrite N); reflexivity.
Qed.

(** Only the scale parts and the rotate handle have a hit region. *)
Lemma hit_region_parts (part : Z) (size margin : arr2 F) (region : @rctf F) :
  hit_region part size margin = Some region ->
  In part (ED_MANIPULATOR_CAGE2D_PART_ROTATE :: scale_parts).
Proof.
  unfold hit_region.
  repeat match goal with
  | |- context [(part =? ?c)%Z] =>
      destruct (Z.eqb_spec part c) as [->|_];
      [intros _; cbv [scale_parts In]; tauto |]
  end.
  discriminate.
Qed.

(** Finds a pair among the corners of a rectangle. *)
Ltac corner_of_region :=
  cbn;
  first [ left; reflexivity
        | right; left; reflexivity
        | right; right; left; reflexivity
        | right; right; right; left; reflexivity ].

(** The handle of a part is drawn on the corners of the region in which
    the hit test answers that part. *)
Lemma interaction_verts_on_region (part : Z) (size margin : arr2 F)
    (region : @rctf F) :
  hit_region part size margin = Some region ->
  exists verts,
    interaction_verts part size margin = Some verts
    /\ Forall (fun v => In v (rect_corners region)) verts.
Proof.
  intros Hreg. pose proof (hit_region_parts _ _ _ _ Hreg) as I.
  cbv [scale_parts In] in I.
  destruct I as [<-|[<-|[<-|[<-|[<-|[<-|[<-|[<-|[<-|[]]]]]]]]]];
    injection Hreg as <-; eexists; (split; [reflexivity |]);
    repeat (apply Forall_cons; [corner_of_region |]); apply Forall_nil.
Qed.

(** X16.  Handles are drawn where they are hit.  When the hit test answers
    a scale part or the rotate handle, the projected point lies in a
    rectangle (the strip of an edge, the crossing of two strips of a
    corner, the hot spot of the rotate handle) and every vertex the draw
    gives that part's handle is a corner of that rectangle. *)
Theorem drawn_handle_on_hit_region (C : bContext F) (mpr : wmManipulator F)
    (event : wmEvent) :
  let part := manipulator_rect_transform_test_select C mpr event in
  let size := cage_size (dimensions mpr) in
  let margin := cage_margin (dimensions mpr) in
  part <> (-1)%Z ->
  part <> ED_MANIPULATOR_CAGE2D_PART_TRANSLATE ->
  exists p region verts,
    manipulator_window_project_2d C mpr (mval event) true = Some p
    /\ hit_region part size margin = Some region
    /\ BLI_rctf_isect_pt_v region p = true
    /\ interaction_verts part size margin = Some verts
    /\ Forall (fun v => In v (rect_corners region)) verts.
Proof.
  cbv zeta. unfold manipulator_rect_transform_test_select.
  destruct (manipulator_window_project_2d C mpr (mval event) true)
    as [p|]; [| contradiction].
  unfold test_select_regions. cbv zeta.
  destruct (has_flag (transform mpr) ED_MANIPULATOR_CAGE2D_XFORM_FLAG_TRANSLATE
            && BLI_rctf_isect_pt_v _ p); [contradiction |].
  intros Hmiss _.
  assert (forall part region,
            hit_region part (cage_size (dimensions mpr))
              (cage_margin (dimensions mpr)) = Some region ->
            BLI_rctf_isect_pt_v region p = true ->
            exists q region verts,
              Some p = Some q
              /\ hit_region part (cage_size (dimensions mpr))
                   (cage_margin (dimensions mpr)) = Some region
              /\ BLI_rctf_isect_pt_v region q = true
              /\ interaction_verts part (cage_size (dimensions mpr))
                   (cage_margin (dimensions mpr)) = Some verts
              /\ Forall (fun v => In v (rect_corners region)) verts) as K.
  { intros part region Hreg Hin.
    destruct (interaction_verts_on_region _ _ _ _ Hreg) as (verts & Hv & Hc).
    exists p, region, verts. auto. }
  destruct (if has_flag (transform mpr) _ then _ else None) as [part|] eqn:Hs.
  - destruct (has_flag (transform mpr) _); [| discriminate].
    apply test_select_scale_region in Hs.
    destruct Hs as (_ & region & Hreg & Hin). now apply K with region.
  - destruct (has_flag (transform mpr) ED_MANIPULATOR_CAGE2D_XFORM_FLAG_ROTATE);
      cbn [andb] in *; [| contradiction].
    destruct (BLI_rctf_isect_pt_v _ p) eqn:Hin; [| contradiction].
    now apply K with (rect_rotate (cage_size (dimensions mpr))
                        (cage_margin (dimensions mpr))).
Qed.

(** X17.  Setup only adds the two draw flags: both are set afterwards, no
    flag set before is cleared, a bit outside the two flags is unchanged,
    and a second call changes nothing. *)
Theorem setup_adds_draw_flags (draw_modal draw_no_scale flag : Z) :
  let flag' :=
    manipulator_rect_transform_setup draw_modal draw_no_scale flag in
  Z.land flag' draw_modal = draw_modal
  /\ Z.land flag' draw_no_scale = draw_no_scale
  /\ Z.land flag' flag = flag
  /\ (forall n : Z,
        Z.testbit flag' n
        = Z.testbit flag n || Z.testbit draw_modal n
          || Z.testbit draw_no_scale n)
  /\ manipulator_rect_transform_setup draw_modal draw_no_scale flag' = flag'.
Proof.
  cbv zeta. unfold manipulator_rect_transform_setup.
  repeat split; try (apply Z.bits_inj'; intros n _);
    try intros n;
    rewrite ?Z.land_spec, ?Z.lor_spec;
    destruct (Z.testbit flag n), (Z.testbit draw_modal n),
      (Z.testbit draw_no_scale n); reflexivity.
Qed.

End DrawProperties.

(* ------------------------------------------------------------------ *)
(** * The further properties on sample sessions *)

Module SampleViewProperties.
Import Sample SampleViews.
Local Open Scope fl_scope.

(** The pointer in the left and the bottom strip hits their corner. *)
Lemma test_select_corner_over_edge_witness :
  In (manipulator_rect_transform_test_select (pixel_context 1) idle_cage
        corner_pointer) corner_parts
  /\ ~ In (manipulator_rect_transform_test_select (pixel_context 1) idle_cage
            corner_pointer) edge_parts
  /\ manipulator_rect_transform_test_select (pixel_context 1) idle_cage
       corner_pointer
     = if BLI_rctf_isect_pt_v
            (rect_xmin (cage_size (dimensions idle_cage))
                (cage_margin (dimensions idle_cage)))
            (f_of_Z (-95) / f_of_Z 1, f_of_Z (-95) / f_of_Z 1)
       then
         if BLI_rctf_isect_pt_v
            (rect_ymin (cage_size (dimensions idle_cage))
                (cage_margin (dimensions idle_cage)))
            (f_of_Z (-95) / f_of_Z 1, f_of_Z (-95) / f_of_Z 1)
         then ED_MANIPULATOR_CAGE2D_PART_SCALE_MIN_X_MIN_Y
         else ED_MANIPULATOR_CAGE2D_PART_SCALE_MIN_X_MAX_Y
       else
         if BLI_rctf_isect_pt_v
            (rect_ymin (cage_size (dimensions idle_cage))
                (cage_margin (dimensions idle_cage)))
            (f_of_Z (-95) / f_of_Z 1, f_of_Z (-95) / f_of_Z 1)
         then ED_MANIPULATOR_CAGE2D_PART_SCALE_MAX_X_MIN_Y
         else ED_MANIPULATOR_CAGE2D_PART_SCALE_MAX_X_MAX_Y.
Proof.
  apply (test_select_corner_over_edge (pixel_context 1) idle_cage
           corner_pointer (f_of_Z (-95) / f_of_Z 1, f_of_Z (-95) / f_of_Z 1));
    vm_compute; reflexivity.
Defined.

(** The pointer in the left strip only hits the left edge. *)
Lemma test_select_edge_witness :
  In (manipulator_rect_transform_test_select (pixel_context 1) idle_cage
        edge_pointer) edge_parts
  /\ manipulator_rect_transform_test_select (pixel_context 1) idle_cage
       edge_pointer
     = if BLI_rctf_isect_pt_v
            (rect_xmin (cage_size (dimensions idle_cage))
                (cage_margin (dimensions idle_cage)))
            (f_of_Z (-95) / f_of_Z 1, f_of_Z 0 / f_of_Z 1)
       then ED_MANIPULATOR_CAGE2D_PART_SCALE_MIN_X
       else
         if BLI_rctf_isect_pt_v
            (rect_xmax (cage_size (dimensions idle_cage))
                (cage_margin (dimensions idle_cage)))
            (f_of_Z (-95) / f_of_Z 1, f_of_Z 0 / f_of_Z 1)
         then ED_MANIPULATOR_CAGE2D_PART_SCALE_MAX_X
         else
           if BLI_rctf_isect_pt_v
            (rect_ymin (cage_size (dimensions idle_cage))
                (cage_margin (dimensions idle_cage)))
            (f_of_Z (-95) / f_of_Z 1, f_of_Z 0 / f_of_Z 1)
           then ED_MANIPULATOR_CAGE2D_PART_SCALE_MIN_Y
           else ED_MANIPULATOR_CAGE2D_PART_SCALE_MAX_Y.
Proof.
  apply (test_select_edge (pixel_context 1) idle_cage edge_pointer
           (f_of_Z (-95) / f_of_Z 1, f_of_Z 0 / f_of_Z 1));
    vm_compute; reflexivity.
Defined.

(** The two hits above, evaluated. *)
Example sample_hits :
  manipulator_rect_transform_test_select (pixel_context 1) idle_cage
    corner_pointer = ED_MANIPULATOR_CAGE2D_PART_SCALE_MIN_X_MIN_Y
  /\ manipulator_rect_transform_test_select (pixel_context 1) idle_cage
       edge_pointer = ED_MANIPULATOR_CAGE2D_PART_SCALE_MIN_X.
Proof. vm_compute. split; reflexivity. Qed.

(** Scaling alone and uniform scaling alone give the same hit. *)
Lemma test_select_scale_flags_alike_witness :
  manipulator_rect_transform_test_select (pixel_context 1)
    (cage 200 200 ED_MANIPULATOR_CAGE2D_XFORM_FLAG_SCALE_UNIFORM (-1))
    edge_pointer
  = manipulator_rect_transform_test_select (pixel_context 1)
      (cage 200 200 ED_MANIPULATOR_CAGE2D_XFORM_FLAG_SCALE (-1)) edge_pointer.
Proof.
  apply (test_select_scale_flags_alike (pixel_context 1) (pixel_context 1)
           (cage 200 200 ED_MANIPULATOR_CAGE2D_XFORM_FLAG_SCALE (-1))
           (cage 200 200 ED_MANIPULATOR_CAGE2D_XFORM_FLAG_SCALE_UNIFORM (-1))
           edge_pointer edge_pointer
           (f_of_Z (-95) / f_of_Z 1, f_of_Z 0 / f_of_Z 1));
    vm_compute; reflexivity.
Defined.

(** The first update of the translate drag. *)
Lemma modal_writes_matrix_only_witness :
  dimensions (out_mpr translate_update) = dimensions translate_drag
  /\ transform (out_mpr translate_update) = transform translate_drag
  /\ highlight_part (out_mpr translate_update) = highlight_part translate_drag
  /\ interaction_data (out_mpr translate_update)
     = interaction_data translate_drag
  /\ out_status translate_update = OPERATOR_RUNNING_MODAL
  /\ ((out_requests translate_update = []
       /\ out_mpr translate_update = translate_drag)
      \/ (out_requests translate_update = [RegionTagRedraw; EventAddMousemove]
          /\ target_matrix (out_mpr translate_update)
             = option_map (fun _ => matrix_offset (out_mpr translate_update))
                 (target_matrix translate_drag))).
Proof.
  apply (modal_writes_matrix_only (pixel_context 1) translate_drag
           (pointer_at 5 (-3)) translate_update).
  vm_compute; reflexivity.
Defined.

(** The translate drag of three moves, released. *)
Lemma drag_session_keeps_mirror_witness :
  exists r,
    drag_session (pixel_context 1)
      (cage_on ED_MANIPULATOR_CAGE2D_PART_TRANSLATE) (pointer_at 0 0)
      translate_moves false = Done r
    /\ mirrored r.
Proof.
  apply (drag_session_keeps_mirror (pixel_context 1)
           (cage_on ED_MANIPULATOR_CAGE2D_PART_TRANSLATE) (pointer_at 0 0)
           translate_moves false).
  - right; reflexivity.
  - left; reflexivity.
Defined.

(** The same drag, cancelled. *)
Lemma drag_session_cancel_is_press_witness :
  drag_session (pixel_context 1)
    (cage_on ED_MANIPULATOR_CAGE2D_PART_TRANSLATE) (pointer_at 0 0)
    translate_moves true
  = Done
      (out_mpr
         (manipulator_rect_transform_invoke (pixel_context 1)
            (cage_on ED_MANIPULATOR_CAGE2D_PART_TRANSLATE) (pointer_at 0 0))).
Proof.
  apply (drag_session_cancel_is_press (pixel_context 1)
           (cage_on ED_MANIPULATOR_CAGE2D_PART_TRANSLATE) (pointer_at 0 0)
           translate_moves).
  - right; reflexivity.
  - left; reflexivity.
Defined.

(** After the three moves, the update to [(1, 1)] stores what it stores
    right after the press. *)
Lemma modal_forgets_earlier_moves_witness :
  exists o o',
    manipulator_rect_transform_modal (pixel_context 1)
      (out_mpr
         (manipulator_rect_transform_invoke (pixel_context 1)
            (cage_on ED_MANIPULATOR_CAGE2D_PART_TRANSLATE) (pointer_at 0 0)))
      (pointer_at 1 1) = Done o
    /\ manipulator_rect_transform_modal (pixel_context 1) translate_moved
         (pointer_at 1 1) = Done o'
    /\ matrix_offset (out_mpr o') = matrix_offset (out_mpr o)
    /\ target_matrix (out_mpr o') = target_matrix (out_mpr o).
Proof.
  apply (modal_forgets_earlier_moves (pixel_context 1)
           (cage_on ED_MANIPULATOR_CAGE2D_PART_TRANSLATE) (pointer_at 0 0)
           translate_moves translate_moved (pixel_context 1) (pointer_at 1 1)
           (f_of_Z 1 / f_of_Z 1, f_of_Z 1 / f_of_Z 1)).
  - left; reflexivity.
  - vm_compute; reflexivity.
  - vm_compute; reflexivity.
  - vm_compute; reflexivity.
Defined.

(** The first update of the translate drag, repeated. *)
Lemma modal_idempotent_witness :
  manipulator_rect_transform_modal (pixel_context 1)
    (out_mpr translate_update) (pointer_at 5 (-3))
  = Done translate_update.
Proof.
  apply (modal_idempotent (pixel_context 1) translate_drag
           (pointer_at 5 (-3)) (press_data 1 0 0) translate_update);
    vm_compute; reflexivity.
Defined.

(** The left edge, hit and then dragged. *)
Lemma hit_part_can_be_dragged_witness :
  exists r,
    drag_session (pixel_context 1)
      (cage_on ED_MANIPULATOR_CAGE2D_PART_SCALE_MIN_X) edge_pointer
      [(pixel_context 1, pointer_at (-120) 0)] false = Done r.
Proof.
  apply (hit_part_can_be_dragged (pixel_context 1) idle_cage edge_pointer
           (pixel_context 1) (cage_on ED_MANIPULATOR_CAGE2D_PART_SCALE_MIN_X)
           edge_pointer [(pixel_context 1, pointer_at (-120) 0)] false).
  - vm_compute; discriminate.
  - vm_compute; reflexivity.
Defined.

(** The cursor over the left edge, the 3D flag being the bit 1 and the
    group a 2D one. *)
Lemma cursor_of_hit_test_witness :
  (has_flag 0 2 = false ->
   (manipulator_rect_transform_get_cursor 2 0
      (cage_on ED_MANIPULATOR_CAGE2D_PART_SCALE_MIN_X) = CURSOR_STD
    <-> manipulator_rect_transform_test_select (pixel_context 1) idle_cage
          edge_pointer = (-1)%Z))
  /\ (has_flag 0 2 = true ->
      manipulator_rect_transform_get_cursor 2 0
        (cage_on ED_MANIPULATOR_CAGE2D_PART_SCALE_MIN_X)
      = BC_NSEW_SCROLLCURSOR).
Proof.
  apply (cursor_of_hit_test 2 0 (pixel_context 1) idle_cage edge_pointer
           (cage_on ED_MANIPULATOR_CAGE2D_PART_SCALE_MIN_X)).
  vm_compute; reflexivity.
Defined.

(** The handle of the left edge lies on the corners of the left strip. *)
Lemma drawn_handle_on_hit_region_witness :
  exists p region verts,
    manipulator_window_project_2d (pixel_context 1) idle_cage
      (mval edge_pointer) true = Some p
    /\ hit_region
         (manipulator_rect_transform_test_select (pixel_context 1) idle_cage
            edge_pointer)
         (cage_size (dimensions idle_cage))
         (cage_margin (dimensions idle_cage)) = Some region
    /\ BLI_rctf_isect_pt_v region p = true
    /\ interaction_verts
         (manipulator_rect_transform_test_select (pixel_context 1) idle_cage
            edge_pointer)
         (cage_size (dimensions idle_cage))
         (cage_margin (dimensions idle_cage)) = Some verts
    /\ Forall (fun v => In v (rect_corners region)) verts.
Proof.
  apply (drawn_handle_on_hit_region (pixel_context 1) idle_cage edge_pointer);
    vm_compute; discriminate.
Defined.

(** The three moves of the translate drag change the matrix, and the
    cancel undoes them. *)
Example cancel_undoes_moves :
  mget (matrix_offset translate_moved) I3 I0 = f_of_Z 7
  /\ drag_session (pixel_context 1)
       (cage_on ED_MANIPULATOR_CAGE2D_PART_TRANSLATE) (pointer_at 0 0)
       translate_moves true = Done translate_drag.
Proof. vm_compute. split; reflexivity. Qed.

End SampleViewProperties.
